(** * video_editor.face_search: a shallow embedding and its properties

    The module [video_editor/face_search.py] estimates the orientation of a
    clip from the faces an OpenCV cascade classifier finds in sampled frames.
    It has three functions (the editor and its utilities come after them,
    in [VideoEditor]):

    - [__rotation_generator]: a Python generator of rotation hypotheses;
    - [get_average_face_position_in_image]: the per-frame face locator;
    - [get_average_faces_position_in_clip]: the per-clip estimator.

    Modelling choices.
    - Python [int] is [Z]; Python [float] is modelled by exact rationals [Q]
      (for the frame sizes, angles and face rectangles of real clips every
      float the module computes is compared with an integer or rounded, and
      the exact quotient gives the same outcome).
    - The duration and the frame rate of the metadata are the values
      pymediainfo gives, passed through unconverted ([py_value]): the frame
      rate of a real file is a [str].
    - A raised exception is the [Raise] case of [result]; [StopIteration] is
      one of the exceptions, as in Python.
    - A generator object is a small state machine ([generator]) advanced by
      [next]; the body of a generator function runs at the first [next].
    - OpenCV (capture, rotation, colour conversion, detector) is external
      and is taken as an interface, the class [OpenCV].
    - [while True] and the locator's recursion take fuel; [None] means the
      fuel ran out, never a Python result. *)

From Stdlib Require Import ZArith QArith Qround List Bool Lia Arith.
From Stdlib Require String.
Import ListNotations.

Local Open Scope Z_scope.

(** ** Exceptions and results *)

Inductive exn : Type :=
| ValueError
| IndexError
| KeyError
| ZeroDivisionError
| AttributeError
| StopIteration
| TypeError.

Inductive result (A : Type) : Type :=
| Ok (a : A)
| Raise (e : exn).

Arguments Ok {A} a.
Arguments Raise {A} e.

Definition bind {A B : Type} (r : result A) (k : A -> result B) : result B :=
  match r with
  | Ok a => k a
  | Raise e => Raise e
  end.

Notation "x <- r ;; k" := (bind r (fun x => k))
  (at level 61, r at next level, right associativity).

(** ** Python values that are passed through unconverted

    [get_video_metadata] stores [track.duration] and [track.frame_rate]
    as pymediainfo gives them: [None], an [int], a [float] or, for a frame
    rate such as ['25.000'], a [str]. *)

Inductive py_value : Type :=
| PyNone
| PyInt (z : Z)
| PyFloat (q : Q)
| PyStr (s : String.string).

(** [s * n] on a [str]: [n] copies, none when [n <= 0]. *)
Fixpoint str_repeat (s : String.string) (n : nat) : String.string :=
  match n with
  | O => String.EmptyString
  | S n' => String.append s (str_repeat s n')
  end.

(** [value * n] for an [int] [n]. *)
Definition py_mul_int (value : py_value) (n : Z) : result py_value :=
  match value with
  | PyNone => Raise TypeError
  | PyInt z => Ok (PyInt (z * n))
  | PyFloat q => Ok (PyFloat (q * inject_Z n))
  | PyStr s => Ok (PyStr (str_repeat s (Z.to_nat n)))
  end.

(** ** Python arithmetic on floats, as rationals *)

(** [a / b] on numbers: true division. *)
Definition py_truediv (a b : Q) : result Q :=
  if Qeq_bool b 0 then Raise ZeroDivisionError else Ok (a / b)%Q.

(** [a % b] for a positive divisor [b]: the result lies in [0, b). *)
Definition py_mod (a b : Q) : Q :=
  (a - b * inject_Z (Qfloor (a / b)))%Q.

(** [round(q)] with one argument: nearest integer, halves to the even one. *)
Definition py_round (q : Q) : Z :=
  let f := Qfloor q in
  match Qcompare (q - inject_Z f) (1 # 2) with
  | Lt => f
  | Gt => f + 1
  | Eq => if Z.even f then f else f + 1
  end.

(** ** Python lists and dicts *)

(** [l.index(x)]: position of the first occurrence, [ValueError] if none. *)
Fixpoint list_index (x : Z) (l : list Z) : result nat :=
  match l with
  | [] => Raise ValueError
  | y :: t => if x =? y then Ok O else i <- list_index x t ;; Ok (S i)
  end.

(** [l.append(l.pop(0))]. *)
Definition pop0_append (l : list Z) : result (list Z) :=
  match l with
  | [] => Raise IndexError
  | x :: t => Ok (t ++ [x])
  end.

(** [for j in range(0, i): l.append(l.pop(0))]. *)
Fixpoint pop0_append_times (i : nat) (l : list Z) : result (list Z) :=
  match i with
  | O => Ok l
  | S j => l' <- pop0_append l ;; pop0_append_times j l'
  end.

(** [l[i]] for a non-negative index. *)
Definition list_get {A : Type} (l : list A) (i : nat) : result A :=
  match nth_error l i with
  | Some a => Ok a
  | None => Raise IndexError
  end.

(** A dict with integer keys, in insertion order. *)
Definition dict (V : Type) : Type := list (Z * V).

(** [d[k]]. *)
Fixpoint dict_get {V : Type} (d : dict V) (k : Z) : result V :=
  match d with
  | [] => Raise KeyError
  | (k', v) :: t => if k =? k' then Ok v else dict_get t k
  end.

(** Replace, in place, the value bound to [k] by its image under [f]. *)
Fixpoint dict_modify {V : Type} (d : dict V) (k : Z) (f : V -> V) : dict V :=
  match d with
  | [] => []
  | (k', v) :: t =>
      if k =? k' then (k', f v) :: t else (k', v) :: dict_modify t k f
  end.

(** [d[k].append(x)]: the lookup can raise, the list bound to [k] grows. *)
Definition dict_append {A : Type} (d : dict (list A)) (k : Z) (x : A)
  : result (dict (list A)) :=
  _ <- dict_get d k ;; Ok (dict_modify d k (fun l => l ++ [x])).

(** ** The rotation hypothesis generator *)

Module RotationGenerator.

(** The states of the generator object made by [__rotation_generator(r)]:
    not started yet (the body has not run), suspended at the [yield] of the
    second loop with loop index [i] over [range(n)], or finished. *)
Inductive generator : Type :=
| Created (current_rotate : Z)
| Suspended (rotates : list Z) (n : nat) (i : nat)
| Finished.

Definition base_rotates : list Z := [0; 90; 270; 180].

(** The second loop, entered at index [i]: yield [rotates[i]] when [i] is
    in [range(n)], otherwise fall off the end of the body. *)
Definition yield_at (rotates : list Z) (n i : nat) : result Z * generator :=
  if (i <? n)%nat then
    match list_get rotates i with
    | Ok v => (Ok v, Suspended rotates n i)
    | Raise e => (Raise e, Finished)
    end
  else (Raise StopIteration, Finished).

(** [next(g)]. *)
Definition next (g : generator) : result Z * generator :=
  match g with
  | Created current_rotate =>
      match
        (i <- list_index current_rotate base_rotates ;;
         pop0_append_times i base_rotates)
      with
      | Ok rotates => yield_at rotates (length rotates) O
      | Raise e => (Raise e, Finished)
      end
  | Suspended rotates n i => yield_at rotates n (S i)
  | Finished => (Raise StopIteration, Finished)
  end.

(** Draw [k] times from [g]: the outcomes in order, and the final state. *)
Fixpoint draw (k : nat) (g : generator) : list (result Z) * generator :=
  match k with
  | O => ([], g)
  | S k' =>
      let '(r, g') := next g in
      let '(rs, g'') := draw k' g' in
      (r :: rs, g'')
  end.

(** The cyclic rotation the description speaks of: the first [i] elements
    moved, in order, behind the others. *)
Definition cycle_left (i : nat) (l : list Z) : list Z :=
  skipn i l ++ firstn i l.

Definition canonical (r : Z) : Prop :=
  r = 0 \/ r = 90 \/ r = 180 \/ r = 270.

(** The order in which the hypotheses are tried from a canonical start. *)
Definition order_from (r0 : Z) : list Z :=
  match list_index r0 base_rotates with
  | Ok i => cycle_left i base_rotates
  | Raise _ => []
  end.

(** The number of values [g] can still yield, at most. *)
Definition remaining (g : generator) : nat :=
  match g with
  | Created _ => length base_rotates
  | Suspended _ n i => n - S i
  | Finished => 0
  end.

End RotationGenerator.

(** ** The external collaborators *)

(** The three entries of [__cv2_rotation_consts]. *)
Inductive rotate_code : Type :=
| ROTATE_90_CLOCKWISE
| ROTATE_180
| ROTATE_90_COUNTERCLOCKWISE.

Definition cv2_rotation_consts : dict rotate_code :=
  [(90, ROTATE_90_COUNTERCLOCKWISE); (180, ROTATE_180);
   (270, ROTATE_90_CLOCKWISE)].

(** A face region as the detector reports it: [(x, y, w, h)], read by the
    module as [face[0]] to [face[3]]. *)
Record Rect : Type := mkRect { face0 : Z; face1 : Z; face2 : Z; face3 : Z }.

(** What the module uses of OpenCV.  [detectMultiScale] stands for the call
    on the module's classifier with [scaleFactor=1.2, minNeighbors=10];
    [read] gives [Some image] when a frame was captured; [set_pos_frames c p]
    is [c.set(cv2.CAP_PROP_POS_FRAMES, p)]. *)
Class OpenCV : Type := {
  Image : Type;
  Capture : Type;
  rotate : Image -> rotate_code -> Image;
  cvtColor_BGR2GRAY : Image -> Image;
  detectMultiScale : Image -> list Rect;
  read : Capture -> option Image * Capture;
  set_pos_frames : Capture -> Q -> Capture
}.

(** The dataclass of [metadata.py]; the two text fields are left out.
    [duration] and [fps] hold what [get_video_metadata] puts there. *)
Module Metadata.
Record t : Type := mk {
  width : Z;
  height : Z;
  rotation : Q;
  duration : py_value;
  fps : py_value
}.
End Metadata.

(** Attribute access on the value of [get_video_metadata(path)], which is
    [None] when the file has no video track. *)
Definition attr {A : Type} (metadata : option Metadata.t)
  (field : Metadata.t -> A) : result A :=
  match metadata with
  | Some m => Ok (field m)
  | None => Raise AttributeError
  end.

(** An observation: the rounded face position of one frame. *)
Definition position : Type := (Z * Z)%type.

(** The [rotation] argument of the locator: an [int] or a generator. *)
Inductive rotation_arg : Type :=
| AsInt (r : Z)
| AsGenerator (g : RotationGenerator.generator).

Inductive control (S : Type) : Type :=
| Continue (s : S)
| Break (s : S).

Arguments Continue {S} s.
Arguments Break {S} s.

Section Model.

Context {cv : OpenCV}.

(** *** The frame face locator *)

(** The [for face in faces_in_frame] loop with its three accumulators. *)
Fixpoint sum_centers (faces_in_frame : list Rect)
  (average_x average_y : Q) (face_counter : Z) : Q * Q * Z :=
  match faces_in_frame with
  | [] => (average_x, average_y, face_counter)
  | face :: rest =>
      let x := (inject_Z (face0 face) + inject_Z (face2 face) / 2)%Q in
      let y := (inject_Z (face1 face) + inject_Z (face3 face) / 2)%Q in
      sum_centers rest (average_x + x)%Q (average_y + y)%Q (face_counter + 1)
  end.

(** The image handed to the colour conversion at hypothesis [r]. *)
Definition rotated (image : Image) (current_rotation : Z) : result Image :=
  if negb (current_rotation =? 0) then
    code <- dict_get cv2_rotation_consts current_rotation ;;
    Ok (rotate image code)
  else Ok image.

(** Lines 114 and 115: [if type(rotation) == int: ...]. *)
Definition as_generator (rotation : rotation_arg)
  : RotationGenerator.generator :=
  match rotation with
  | AsInt r => RotationGenerator.Created r
  | AsGenerator g => g
  end.

(** Lines 131 to 138: the mean of the centers, rounded. *)
Definition average_of_faces (faces_in_frame : list Rect)
  (current_rotation : Z) : result (option (Z * Z * Z)) :=
  let '(average_x, average_y, face_counter) :=
    sum_centers faces_in_frame 0 0 0 in
  mx <- py_truediv average_x (inject_Z face_counter) ;;
  my <- py_truediv average_y (inject_Z face_counter) ;;
  Ok (Some (py_round mx, py_round my, current_rotation)).

(** [get_average_face_position_in_image(image, rotation)].  The second
    component lists, in call order, the images given to the detector. *)
Fixpoint get_average_face_position_in_image (fuel : nat) (image : Image)
  (rotation : rotation_arg) {struct fuel}
  : option (result (option (Z * Z * Z)) * list Image) :=
  match fuel with
  | O => None
  | S fuel' =>
      match RotationGenerator.next (as_generator rotation) with
      | (Raise StopIteration, _) => Some (Ok None, [])
      | (Raise e, _) => Some (Raise e, [])
      | (Ok current_rotation, g') =>
          match rotated image current_rotation with
          | Raise e => Some (Raise e, [])
          | Ok r_image =>
              let gray := cvtColor_BGR2GRAY r_image in
              let faces_in_frame := detectMultiScale gray in
              if (length faces_in_frame =? 0)%nat then
                match
                  get_average_face_position_in_image fuel' image
                    (AsGenerator g')
                with
                | None => None
                | Some (r, calls) => Some (r, gray :: calls)
                end
              else
                Some (average_of_faces faces_in_frame current_rotation,
                      [gray])
          end
      end
  end.

(** *** The clip orientation estimator *)

(** The variables the sampling loop reads and writes. *)
Record loop_state : Type := mkState {
  faces : dict (list position);
  capture : Capture;
  rotation : Z;
  frames_counter : Z
}.

Definition initial (capture0 : Capture) : loop_state :=
  {| faces := [(0, []); (90, []); (180, []); (270, [])];
     capture := capture0;
     rotation := 0;
     frames_counter := 1 |}.

(** [capture.set(cv2.CAP_PROP_POS_FRAMES, value)]: OpenCV takes a number
    and raises [TypeError] on anything else. *)
Definition capture_set (c : Capture) (value : py_value) : result Capture :=
  match value with
  | PyInt z => Ok (set_pos_frames c (inject_Z z))
  | PyFloat q => Ok (set_pos_frames c q)
  | PyNone => Raise TypeError
  | PyStr _ => Raise TypeError
  end.

(** Lines 61 to 65: what a located face does to [faces] and [rotation];
    the boolean tells whether the early exit is taken. *)
Definition record_face (s : loop_state) (found : option (Z * Z * Z))
  : result (dict (list position) * Z * bool) :=
  match found with
  | Some (x, y, rotation') =>
      faces' <- dict_append (faces s) rotation' (x, y) ;;
      group <- dict_get faces' rotation' ;;
      Ok (faces', rotation', (2 <? length group)%nat)
  | None => Ok (faces s, rotation s, false)
  end.

(** One pass through the body of [while True]. *)
Definition loop_body (lfuel : nat) (metadata : option Metadata.t)
  (s : loop_state) : option (result (control loop_state)) :=
  let '(captured, capture1) := read (capture s) in
  match captured with
  | None =>
      Some (Ok (Break {| faces := faces s; capture := capture1;
                         rotation := rotation s;
                         frames_counter := frames_counter s |}))
  | Some image =>
      match
        get_average_face_position_in_image lfuel image (AsInt (rotation s))
      with
      | None => None
      | Some (Raise e, _) => Some (Raise e)
      | Some (Ok found, _) =>
          Some
            (upd <- record_face s found ;;
             let '(faces', rotation', stop) := upd in
             if stop then
               Ok (Break {| faces := faces'; capture := capture1;
                            rotation := rotation';
                            frames_counter := frames_counter s |})
             else
               let frames_counter' := frames_counter s + 1 in
               fps <- attr metadata Metadata.fps ;;
               position <- py_mul_int fps frames_counter' ;;
               capture2 <- capture_set capture1 position ;;
               Ok (Continue
                     {| faces := faces';
                        capture := capture2;
                        rotation := rotation';
                        frames_counter := frames_counter' |}))
      end
  end.

(** [while True: ...], giving the state at the [break]. *)
Fixpoint while_true (fuel lfuel : nat) (metadata : option Metadata.t)
  (s : loop_state) : option (result loop_state) :=
  match fuel with
  | O => None
  | S fuel' =>
      match loop_body lfuel metadata s with
      | None => None
      | Some (Raise e) => Some (Raise e)
      | Some (Ok (Break s')) => Some (Ok s')
      | Some (Ok (Continue s')) => while_true fuel' lfuel metadata s'
      end
  end.

(** The state in which the [k]-th pass through the loop body begins,
    when the run gets that far ([k] counts from 1). *)
Fixpoint attempt_state (lfuel : nat) (metadata : option Metadata.t)
  (capture0 : Capture) (k : nat) : option loop_state :=
  match k with
  | O => None
  | S O => Some (initial capture0)
  | S k' =>
      match attempt_state lfuel metadata capture0 k' with
      | Some s =>
          match loop_body lfuel metadata s with
          | Some (Ok (Continue s')) => Some s'
          | _ => None
          end
      | None => None
      end
  end.

(** Lines 68 to 73: [for key, faces_in_group in faces.items()]. *)
Fixpoint select_rotation (items : dict (list position))
  (max_faces_in_group : nat) (rotation : Z) : Z :=
  match items with
  | [] => rotation
  | (key, faces_in_group) :: rest =>
      let count_faces_in_group := length faces_in_group in
      if (max_faces_in_group <? count_faces_in_group)%nat
      then select_rotation rest count_faces_in_group key
      else select_rotation rest max_faces_in_group rotation
  end.

(** Lines 74 to 79: [(clip_w, clip_h)]. *)
Definition clip_size (metadata : option Metadata.t) (rotation : Z)
  : result (Z * Z) :=
  if Qeq_bool (py_mod (inject_Z rotation / 90) 2) 1 then
    clip_w <- attr metadata Metadata.height ;;
    clip_h <- attr metadata Metadata.width ;;
    Ok (clip_w, clip_h)
  else
    clip_w <- attr metadata Metadata.width ;;
    clip_h <- attr metadata Metadata.height ;;
    Ok (clip_w, clip_h).

(** Line 80, one row of [lines]. *)
Definition thirds (side : Z) : list Q :=
  [(inject_Z side / 3)%Q; (inject_Z side * 2 / 3)%Q; inject_Z side].

Definition lines_of (clip_w clip_h : Z) : list Q * list Q :=
  (thirds clip_w, thirds clip_h).

(** Lines 89 to 92: [i + 1] for the first [i] from [i0] on with
    [v <= line[i]], and the initial [0] when no threshold is reached. *)
Fixpoint bucket (v : Z) (line : list Q) (i0 : Z) : Z :=
  match line with
  | [] => 0
  | threshold :: rest =>
      if Qle_bool (inject_Z v) threshold then i0 + 1
      else bucket v rest (i0 + 1)
  end.

(** Lines 85 to 99: [for face in faces[rotation]]. *)
Fixpoint sum_buckets (group : list position) (lines : list Q * list Q)
  (average_x average_y faces_counter : Z) : Z * Z * Z :=
  match group with
  | [] => (average_x, average_y, faces_counter)
  | face :: rest =>
      let x := bucket (fst face) (fst lines) 0 in
      let y := bucket (snd face) (snd lines) 0 in
      sum_buckets rest lines (average_x + x) (average_y + y)
        (faces_counter + 1)
  end.

(** Lines 82 to 100: the bucket averages of one group, rounded. *)
Definition average_buckets (group : list position)
  (lines : list Q * list Q) : result (Z * Z) :=
  let '(average_x, average_y, faces_counter) :=
    sum_buckets group lines 0 0 0 in
  bx <- py_truediv (inject_Z average_x) (inject_Z faces_counter) ;;
  by_ <- py_truediv (inject_Z average_y) (inject_Z faces_counter) ;;
  Ok (py_round bx, py_round by_).

(** Lines 68 to 100: everything after the sampling loop. *)
Definition after_loop (metadata : option Metadata.t) (s : loop_state)
  : result (Z * Z * Z) :=
  let rotation := select_rotation (faces s) 0 (rotation s) in
  size <- clip_size metadata rotation ;;
  let lines := lines_of (fst size) (snd size) in
  group <- dict_get (faces s) rotation ;;
  xy <- average_buckets group lines ;;
  Ok (fst xy, snd xy, rotation).

(** [get_average_faces_position_in_clip(path)], from line 54 on: for the
    capture that line 52 opens and the metadata that the call of line 53
    returns.  What those two calls raise themselves is not part of it. *)
Definition get_average_faces_position_in_clip (fuel lfuel : nat)
  (capture0 : Capture) (metadata : option Metadata.t)
  : option (result (Z * Z * Z)) :=
  match while_true fuel lfuel metadata (initial capture0) with
  | None => None
  | Some (Raise e) => Some (Raise e)
  | Some (Ok s) => Some (after_loop metadata s)
  end.

(** *** Notions used to state the properties *)

(** The faces the detector reports for [image] at hypothesis [r]. *)
Definition detected (image : Image) (r : Z) : result (list Rect) :=
  r_image <- rotated image r ;;
  Ok (detectMultiScale (cvtColor_BGR2GRAY r_image)).

(** The locator as a bounded loop over a list of hypotheses: stop at the
    first one with a face. *)
Fixpoint search (image : Image) (order : list Z)
  : result (option (Z * Z * Z)) * list Image :=
  match order with
  | [] => (Ok None, [])
  | r :: rest =>
      match rotated image r with
      | Raise e => (Raise e, [])
      | Ok r_image =>
          let gray := cvtColor_BGR2GRAY r_image in
          let faces_in_frame := detectMultiScale gray in
          if (length faces_in_frame =? 0)%nat then
            let '(res, calls) := search image rest in (res, gray :: calls)
          else (average_of_faces faces_in_frame r, [gray])
      end
  end.

(** The center of a face region, and the mean of a list of numbers. *)
Definition center_x (face : Rect) : Q :=
  (inject_Z (face0 face) + inject_Z (face2 face) / 2)%Q.

Definition center_y (face : Rect) : Q :=
  (inject_Z (face1 face) + inject_Z (face3 face) / 2)%Q.

Definition Qsum (l : list Q) : Q := fold_right Qplus 0%Q l.

Definition mean (l : list Q) : Q :=
  (Qsum l / inject_Z (Z.of_nat (length l)))%Q.

(** The states in which a pass through the loop body begins. *)
Inductive at_head (lfuel : nat) (metadata : option Metadata.t)
  (capture0 : Capture) : loop_state -> Prop :=
| head_initial : at_head lfuel metadata capture0 (initial capture0)
| head_continue : forall s s',
    at_head lfuel metadata capture0 s ->
    loop_body lfuel metadata s = Some (Ok (Continue s')) ->
    at_head lfuel metadata capture0 s'.

(** All the states a run goes through: those at the head of the loop and
    the one at a [break]. *)
Inductive visited (lfuel : nat) (metadata : option Metadata.t)
  (capture0 : Capture) : loop_state -> Prop :=
| visited_head : forall s,
    at_head lfuel metadata capture0 s -> visited lfuel metadata capture0 s
| visited_break : forall s s',
    at_head lfuel metadata capture0 s ->
    loop_body lfuel metadata s = Some (Ok (Break s')) ->
    visited lfuel metadata capture0 s'.

(** [r] is the first key of [d], in the order of [d], whose group is a
    longest one. *)
Definition first_longest (d : dict (list position)) (r : Z) : Prop :=
  exists before group after,
    d = before ++ (r, group) :: after /\
    Forall (fun kv => (length (snd kv) < length group)%nat) before /\
    Forall (fun kv => (length (snd kv) <= length group)%nat) after.

Definition keys {V : Type} (d : dict V) : list Z := map fst d.

Definition canonical_keys : list Z := [0; 90; 180; 270].

(** The buckets of the observations of a group, along each axis. *)
Definition buckets_x (group : list position) (line : list Q) : list Z :=
  map (fun face => bucket (fst face) line 0) group.

Definition buckets_y (group : list position) (line : list Q) : list Z :=
  map (fun face => bucket (snd face) line 0) group.

Definition Zsum (l : list Z) : Z := fold_right Z.add 0 l.

(** The quotient that [average_buckets] rounds: the sum of the buckets of
    all the observations over the number of observations. *)
Definition bucket_mean (bs : list Z) : Q :=
  (inject_Z (Zsum bs) / inject_Z (Z.of_nat (length bs)))%Q.

(** What holds of the loop variables whenever the loop body begins or the
    loop is left, with [bound] the longest a group can be there. *)
Definition loop_invariant (bound : nat) (s : loop_state) : Prop :=
  keys (faces s) = canonical_keys /\
  RotationGenerator.canonical (rotation s) /\
  Forall (fun kv => (length (snd kv) <= bound)%nat) (faces s) /\
  (rotation s = 0 \/
   exists group, dict_get (faces s) (rotation s) = Ok group /\ group <> []).

(** The number of observations held in [faces]. *)
Definition total_observations (d : dict (list position)) : nat :=
  fold_right (fun kv n => (length (snd kv) + n)%nat) O d.

(** The thresholds of one axis, decided on integers. *)
Definition bucket_of (v side : Z) : Z :=
  if 3 * v <=? side then 1
  else if 3 * v <=? 2 * side then 2
  else if v <=? side then 3
  else 0.

End Model.

(** ** A simulated OpenCV, for examples *)

Module Sim.

Import String.

(** An image is what the detector would see in it under each rotation,
    together with the rotation applied so far. *)
Record image : Type := mkImage {
  seen : option rotate_code -> list Rect;
  turned : option rotate_code
}.

(** A capture is a list of frames and a read position; a read takes the
    frame at the integer part of the position and moves on by one. *)
Record video : Type := mkVideo {
  clip : list image;
  pos : Q
}.

Definition sim_read (c : video) : option image * video :=
  if Qle_bool 0 (pos c) then
    match nth_error (clip c) (Z.to_nat (Qfloor (pos c))) with
    | Some im => (Some im, {| clip := clip c; pos := (pos c + 1)%Q |})
    | None => (None, c)
    end
  else (None, c).

Definition cv : OpenCV := {|
  Image := image;
  Capture := video;
  rotate := fun im code => {| seen := seen im; turned := Some code |};
  cvtColor_BGR2GRAY := fun im => im;
  detectMultiScale := fun im => seen im (turned im);
  read := sim_read;
  set_pos_frames := fun c p => {| clip := clip c; pos := p |}
|}.

(** A frame showing the given faces upright and nothing when turned. *)
Definition upright (fs : list Rect) : image :=
  {| seen := fun t => match t with None => fs | Some _ => [] end;
     turned := None |}.

(** A frame showing the given faces only after a quarter turn
    counterclockwise (hypothesis 90). *)
Definition lying (fs : list Rect) : image :=
  {| seen := fun t =>
       match t with Some ROTATE_90_COUNTERCLOCKWISE => fs | _ => [] end;
     turned := None |}.

(** A frame without faces. *)
Definition blank : image := upright [].

Definition one_face : Rect := mkRect 10 20 30 40.

Definition hd_1080 (fps : Q) : option Metadata.t :=
  Some (Metadata.mk 1920 1080 0 (PyInt 10000) (PyFloat fps)).

(** The metadata of the same file as [get_video_metadata] builds it, the
    frame rate left as the text pymediainfo gives. *)
Definition as_built : option Metadata.t :=
  Some (Metadata.mk 1920 1080 0 (PyInt 10000) (PyStr "25.000"%string)).

Definition film (frames : list image) : video :=
  {| clip := frames; pos := 0 |}.

End Sim.

(** ** The editor and its utilities

    [video_editor/utils.py] and the class [Editor] of
    [video_editor/editor.py].  MoviePy, pymediainfo and [pathlib] are
    external and form the interface [Library]; any of their calls that can
    raise gives an [answer].  A method of [Editor] maps the object to an
    [outcome], which carries the object as the call leaves it, also when the
    call raises.  Messages sent to the logger and to standard output are
    not modelled. *)

Module VideoEditor.

Import String.

Inductive error : Type :=
| RuntimeError
| ValueError
| TypeError
| AttributeError
| LibraryError (code : nat).

Inductive answer (A : Type) : Type :=
| Value (a : A)
| Error (e : error).

Arguments Value {A} a.
Arguments Error {A} e.

(** [get_reasonable_thread_count()], for what [os.cpu_count()] gives
    ([None] when the count is not known, and then [total < 5] raises). *)
Definition get_reasonable_thread_count (cpu_count : option Z) : answer Z :=
  match cpu_count with
  | None => Error TypeError
  | Some total => if total <? 5 then Value 2 else Value (total - 2)
  end.

(** A track of [MediaInfo.parse(path).tracks], with the attributes that
    [get_video_metadata] reads. *)
Record Track : Type := mkTrack {
  track_type : string;
  track_width : Z;
  track_height : Z;
  track_rotation : option string;
  track_duration : py_value;
  track_frame_rate : py_value
}.

Class Library : Type := {
  Clip : Type;
  Path : Type;
  VideoFileClip : Path -> bool -> answer Clip;
  ImageClip : Path -> Q -> answer Clip;
  duration : Clip -> Q;
  size : Clip -> Z * Z;
  filename : Clip -> Path;
  subclipped : Clip -> Q -> option Q -> answer Clip;
  rotated : Clip -> Z -> answer Clip;
  resized : Clip -> Z * Z -> answer Clip;
  concatenate_videoclips : list Clip -> string -> answer Clip;
  write_videofile : Clip -> Path -> option Z -> bool -> Z -> answer unit;
  parse : Path -> answer (list Track);
  float : string -> answer Q;
  parent : Path -> Path;
  stem : Path -> string;
  join : Path -> string -> Path
}.

Section Methods.

Context {lib : Library}.

(** Line 91 of [utils.py]: [float(track.rotation) if track.rotation else 0];
    [None] and the empty string are false. *)
Definition rotation_of (track : Track) : answer Q :=
  match track_rotation track with
  | None => Value 0%Q
  | Some text => if (text =? "")%string then Value 0%Q else float text
  end.

(** Lines 85 to 96 of [utils.py]: [for track in media_info.tracks]. *)
Fixpoint first_video_track (tracks : list Track)
  : answer (option Metadata.t) :=
  match tracks with
  | [] => Value None
  | track :: rest =>
      if (track_type track =? "Video")%string then
        match rotation_of track with
        | Value r =>
            Value (Some (Metadata.mk (track_width track) (track_height track)
                           r (track_duration track)
                           (track_frame_rate track)))
        | Error e => Error e
        end
      else first_video_track rest
  end.

(** The test of line 86 of [utils.py]. *)
Definition is_video (track : Track) : Prop :=
  track_type track = "Video"%string.

(** [get_video_metadata(path)]. *)
Definition get_video_metadata (path : Path) : answer (option Metadata.t) :=
  match parse path with
  | Value tracks => first_video_track tracks
  | Error e => Error e
  end.

(** The data attributes of an [Editor] object; [clip] is [__clip]. *)
Record editor : Type := mkEditor {
  clip : option Clip;
  video_file_path : option Path;
  output_format : string;
  fps : option Z;
  audio : bool;
  write_threads : Z
}.

Inductive outcome (A : Type) : Type :=
| Returns (a : A) (self : editor)
| Raises (e : error) (self : editor).

Arguments Returns {A} a self.
Arguments Raises {A} e self.

(** The object as a call leaves it. *)
Definition after {A : Type} (o : outcome A) : editor :=
  match o with
  | Returns _ self => self
  | Raises _ self => self
  end.

(** [Editor(output_format, fps, without_audio, write_threads)]. *)
Definition init (cpu_count : option Z) (output_format : string)
  (fps : option Z) (without_audio : bool) (write_threads : option Z)
  : answer editor :=
  match
    match write_threads with
    | None => get_reasonable_thread_count cpu_count
    | Some n => Value n
    end
  with
  | Value threads =>
      Value {| clip := None; video_file_path := None;
               output_format := output_format; fps := fps;
               audio := negb without_audio; write_threads := threads |}
  | Error e => Error e
  end.

(** What [getattr(self, name, None)] finds among the data attributes. *)
Inductive attribute : Type :=
| AttrClip (c : Clip)
| AttrPath (p : Path)
| AttrStr (s : string)
| AttrInt (z : Z)
| AttrBool (b : bool)
| AttrObject.

Definition getattr (self : editor) (name : string) : option attribute :=
  if (name =? "_Editor__clip")%string then option_map AttrClip (clip self)
  else if (name =? "video_file_path")%string
  then option_map AttrPath (video_file_path self)
  else if (name =? "_Editor__output_format")%string
  then Some (AttrStr (output_format self))
  else if (name =? "_Editor__fps")%string then option_map AttrInt (fps self)
  else if (name =? "_Editor__audio")%string then Some (AttrBool (audio self))
  else if (name =? "_Editor__write_threads")%string
  then Some (AttrInt (write_threads self))
  else if (name =? "logger")%string then Some AttrObject
  else if (name =? "supported_video_formats")%string then Some AttrObject
  else if (name =? "supported_img_formats")%string then Some AttrObject
  else None.

Definition endswith (s suffix : string) : bool :=
  (String.length suffix <=? String.length s)%nat &&
  (substring (String.length s - String.length suffix)
     (String.length suffix) s =? suffix)%string.

(** Lines 61 to 65 of [utils.py], with [cls.__name__] the name of the
    class of [self]. *)
Definition mangled_name (class_name attr_name : string) : string :=
  if prefix "__" attr_name && negb (endswith attr_name "__")
  then ("_" ++ class_name ++ attr_name)%string
  else attr_name.

(** The decorator [require_initialized(attr_name)] around [method]. *)
Definition require_initialized {A : Type} (attr_name : string)
  (method : editor -> outcome A) (self : editor) : outcome A :=
  match getattr self (mangled_name "Editor" attr_name) with
  | None => Raises RuntimeError self
  | Some _ => method self
  end.

(** [self.__clip = value], after a library call that can raise. *)
Definition assign_clip (value : answer Clip) (self : editor) : outcome unit :=
  match value with
  | Value c =>
      Returns tt {| clip := Some c; video_file_path := video_file_path self;
                    output_format := output_format self; fps := fps self;
                    audio := audio self; write_threads := write_threads self |}
  | Error e => Raises e self
  end.

(** An attribute of [self.__clip]; [None] has none. *)
Definition with_clip {A : Type} (self : editor)
  (k : Clip -> outcome A) : outcome A :=
  match clip self with
  | Some current => k current
  | None => Raises AttributeError self
  end.

Definition Qlt_bool (a b : Q) : bool := negb (Qle_bool b a).

(** The test of lines 106 and 156. *)
Definition invalid_range (start_time : Q) (end_time : option Q) : bool :=
  Qlt_bool start_time 0 ||
  match end_time with
  | Some e => Qlt_bool e start_time
  | None => false
  end.

Definition get_clip : editor -> outcome Clip :=
  require_initialized "__clip"
    (fun self => with_clip self (fun current => Returns current self)).

Definition cut (start_time : Q) (end_time : option Q)
  : editor -> outcome unit :=
  require_initialized "__clip"
    (fun self =>
       if invalid_range start_time end_time then Raises ValueError self
       else
         with_clip self
           (fun current =>
              assign_clip (subclipped current start_time end_time) self)).

Definition rotate (angle : Z) : editor -> outcome unit :=
  require_initialized "__clip"
    (fun self =>
       if negb (existsb (Z.eqb angle) [0; 90; 180; 270])
       then Raises ValueError self
       else
         with_clip self
           (fun current => assign_clip (rotated current angle) self)).

(** [__get_subclip(start_time, end_time)]. *)
Definition get_subclip (start_time : Q) (end_time : option Q)
  : editor -> outcome Clip :=
  require_initialized "__clip"
    (fun self =>
       with_clip self
         (fun current =>
            match subclipped current start_time end_time with
            | Value c => Returns c self
            | Error e => Raises e self
            end)).

(** [insert_clip(clip, time, method)]; [displayed_filepath] only feeds the
    log.  [time < 0] raises on [None], so the test [time is None] of line
    177 is never reached with [None]. *)
Definition insert_clip (new : Clip) (time : option Q) (method : string)
  : editor -> outcome unit :=
  require_initialized "__clip"
    (fun self =>
       match time with
       | None => Raises TypeError self
       | Some t =>
           with_clip self
             (fun current =>
                let time :=
                  if Qlt_bool t 0 then (duration current + t)%Q else t in
                if Qeq_bool time 0 then
                  assign_clip
                    (concatenate_videoclips [new; current] method) self
                else if Qle_bool (duration current) time then
                  assign_clip
                    (concatenate_videoclips [current; new] method) self
                else
                  match get_subclip 0 (Some time) self with
                  | Raises e self1 => Raises e self1
                  | Returns head self1 =>
                      match get_subclip time None self1 with
                      | Raises e self2 => Raises e self2
                      | Returns tail self2 =>
                          assign_clip
                            (concatenate_videoclips [head; new; tail] method)
                            self2
                      end
                  end)
       end).

(** Lines 136-137 and 154-155: resize to the size of the current clip. *)
Definition fit (resize : bool) (new current : Clip) : answer Clip :=
  if resize &&
     (negb (fst (size new) =? fst (size current)) ||
      negb (snd (size new) =? snd (size current)))
  then resized new (fst (size current), snd (size current))
  else Value new.

Definition insert_img (img_path : Path) (time : option Q) (length : Q)
  (resize_img : bool) (method : string) : editor -> outcome unit :=
  require_initialized "__clip"
    (fun self =>
       match ImageClip img_path length with
       | Error e => Raises e self
       | Value img_clip =>
           with_clip self
             (fun current =>
                match fit resize_img img_clip current with
                | Error e => Raises e self
                | Value img_clip' => insert_clip img_clip' time method self
                end)
       end).

Definition insert_video (video_path : Path) (time : option Q)
  (cut_start_time : Q) (cut_end_time : option Q) (resize_video : bool)
  (method : string) : editor -> outcome unit :=
  require_initialized "__clip"
    (fun self =>
       match VideoFileClip video_path (audio self) with
       | Error e => Raises e self
       | Value video_clip =>
           with_clip self
             (fun current =>
                match fit resize_video video_clip current with
                | Error e => Raises e self
                | Value video_clip1 =>
                    if invalid_range cut_start_time cut_end_time
                    then Raises ValueError self
                    else
                      match
                        if Qlt_bool 0 cut_start_time ||
                           match cut_end_time with
                           | Some _ => true
                           | None => false
                           end
                        then subclipped video_clip1 cut_start_time
                               cut_end_time
                        else Value video_clip1
                      with
                      | Error e => Raises e self
                      | Value video_clip2 =>
                          insert_clip video_clip2 time method self
                      end
                end)
       end).

(** [__normalize_video_size()]. *)
Definition normalize_video_size : editor -> outcome unit :=
  require_initialized "__clip"
    (fun self =>
       with_clip self
         (fun current =>
            match get_video_metadata (filename current) with
            | Error e => Raises e self
            | Value None => Raises ValueError self
            | Value (Some metadata) =>
                let width := Metadata.width metadata in
                let height := Metadata.height metadata in
                let rotation := Metadata.rotation metadata in
                let '(width, height) :=
                  if Qeq_bool rotation 90 || Qeq_bool rotation 270
                  then (height, width) else (width, height) in
                assign_clip (resized current (width, height)) self
            end)).

Definition load_video (file_path : Path) (self : editor) : outcome unit :=
  match VideoFileClip file_path (audio self) with
  | Error e => Raises e self
  | Value c =>
      normalize_video_size
        {| clip := Some c; video_file_path := Some file_path;
           output_format := output_format self; fps := fps self;
           audio := audio self; write_threads := write_threads self |}
  end.

Definition write_video (output_file_path : option Path)
  (threads : option Z) : editor -> outcome Path :=
  require_initialized "__clip"
    (fun self =>
       match
         match output_file_path with
         | Some p => Some p
         | None =>
             match video_file_path self with
             | Some source =>
                 Some (join (parent source)
                         (stem source ++ "-edited." ++ output_format self))
             | None => None
             end
         end
       with
       | None => Raises AttributeError self
       | Some target =>
           with_clip self
             (fun current =>
                match
                  write_videofile current target (fps self) (audio self)
                    (match threads with
                     | Some n => n
                     | None => write_threads self
                     end)
                with
                | Value _ => Returns target self
                | Error e => Raises e self
                end)
       end).

(** The public methods, as calls with their arguments. *)
Inductive call : Type :=
| CallGetClip
| CallLoadVideo (file_path : Path)
| CallWriteVideo (output_file_path : option Path) (threads : option Z)
| CallCut (start_time : Q) (end_time : option Q)
| CallRotate (angle : Z)
| CallInsertImg (img_path : Path) (time : option Q) (length : Q)
    (resize_img : bool) (method : string)
| CallInsertVideo (video_path : Path) (time : option Q) (cut_start_time : Q)
    (cut_end_time : option Q) (resize_video : bool) (method : string)
| CallInsertClip (new : Clip) (time : option Q) (method : string).

(** The object after a call, whether it returned or raised. *)
Definition perform (c : call) (self : editor) : editor :=
  match c with
  | CallGetClip => after (get_clip self)
  | CallLoadVideo p => after (load_video p self)
  | CallWriteVideo p t => after (write_video p t self)
  | CallCut s e => after (cut s e self)
  | CallRotate a => after (rotate a self)
  | CallInsertImg p t d r m => after (insert_img p t d r m self)
  | CallInsertVideo p t s e r m => after (insert_video p t s e r m self)
  | CallInsertClip c t m => after (insert_clip c t m self)
  end.

(** The objects a program can hold: a constructed editor after any
    sequence of calls of public methods. *)
Inductive reachable : editor -> Prop :=
| reachable_init : forall cpu_count output_format fps without_audio
                          write_threads self,
    init cpu_count output_format fps without_audio write_threads
      = Value self ->
    reachable self
| reachable_call : forall self c,
    reachable self -> reachable (perform c self).

(** Two objects with the same settings. *)
Definition same_settings (a b : editor) : Prop :=
  output_format a = output_format b /\
  fps a = fps b /\
  audio a = audio b /\
  write_threads a = write_threads b.

(** Lines 22 to 24 and 42 to 44 of [example_rotate_by_faces.py]:
    [if rotation != 0: editor.rotate(rotation)], for the rotation the
    estimator returned. *)
Definition rotate_by_faces (estimate : Z * Z * Z) (self : editor)
  : outcome unit :=
  let '(_, _, rotation) := estimate in
  if negb (rotation =? 0) then rotate rotation self else Returns tt self.

End Methods.

Arguments Returns {lib A} a self.
Arguments Raises {lib A} e self.

(** A simulated library: a clip is the number of its file, a duration
    and a size; file 0 cannot be opened, file 1 has two video tracks and
    the other files have none. *)
Module Demo.

Definition library : Library := {|
  Clip := nat * (Q * (Z * Z));
  Path := nat;
  VideoFileClip := fun p _ =>
    match p with
    | O => Error (LibraryError 2)
    | _ => Value (p, (10%Q, (1920, 1080)))
    end;
  ImageClip := fun p d => Value (p, (d, (640, 480)));
  duration := fun c => fst (snd c);
  size := fun c => snd (snd c);
  filename := fst;
  subclipped := fun c s e =>
    Value (fst c,
           (match e with
            | Some e => (e - s)%Q
            | None => (fst (snd c) - s)%Q
            end, snd (snd c)));
  rotated := fun c a =>
    Value (fst c,
           (fst (snd c),
            if (a =? 90) || (a =? 270)
            then (snd (snd (snd c)), fst (snd (snd c)))
            else snd (snd c)));
  resized := fun c sz => Value (fst c, (fst (snd c), sz));
  concatenate_videoclips := fun l _ =>
    Value (O,
           (fold_right Qplus 0%Q (map (fun c => fst (snd c)) l),
            match l with
            | c :: _ => snd (snd c)
            | [] => (0, 0)
            end));
  write_videofile := fun _ _ _ _ _ => Value tt;
  parse := fun p =>
    match p with
    | 1%nat =>
        Value [mkTrack "General" 0 0 None (PyInt 10000) PyNone;
               mkTrack "Video" 1920 1080 (Some "90.000"%string)
                 (PyInt 10000) (PyStr "25.000");
               mkTrack "Audio" 0 0 None (PyInt 10000) PyNone;
               mkTrack "Video" 640 480 None (PyInt 10000) (PyStr "30.000")]
    | _ => Value [mkTrack "Audio" 0 0 None (PyInt 10000) PyNone]
    end;
  float := fun text =>
    if (text =? "90.000")%string then Value 90%Q else Error ValueError;
  parent := fun p => p;
  stem := fun _ => "clip"%string;
  join := fun p _ => S p
|}.

Definition fresh : editor (lib := library) :=
  mkEditor (lib := library) None None "mp4" None true 2.

Definition loaded : editor (lib := library) :=
  mkEditor (lib := library) (Some (1%nat, (10%Q, (1920, 1080))))
    (Some 1%nat) "mp4" None true 2.

End Demo.

End VideoEditor.

(** * Properties *)

(** ** Arithmetic *)

Lemma py_round_comp (p q : Q) : (p == q)%Q -> py_round p = py_round q.
Proof.
  intros E. unfold py_round.
  rewrite (Qfloor_comp _ _ E).
  assert (H : Qcompare (p - inject_Z (Qfloor q)) (1 # 2)
              = Qcompare (q - inject_Z (Qfloor q)) (1 # 2)).
  { apply Qcompare_comp; [rewrite E; reflexivity | reflexivity]. }
  rewrite H. reflexivity.
Qed.

Lemma py_round_inject_Z (z : Z) : py_round (inject_Z z) = z.
Proof.
  unfold py_round. rewrite Qfloor_Z.
  assert (H : Qcompare (inject_Z z - inject_Z z) (1 # 2) = Lt).
  { apply -> Qlt_alt. setoid_replace (inject_Z z - inject_Z z)%Q with 0%Q by ring.
    reflexivity. }
  rewrite H. reflexivity.
Qed.

(** Rounding keeps a number between two integers between them. *)
Lemma py_round_between (lo hi : Z) (q : Q) :
  (inject_Z lo <= q)%Q -> (q <= inject_Z hi)%Q ->
  lo <= py_round q <= hi.
Proof.
  intros Hlo Hhi.
  assert (Hf1 : lo <= Qfloor q).
  { rewrite <- (Qfloor_Z lo). apply Qfloor_resp_le. exact Hlo. }
  assert (Hf2 : Qfloor q <= hi).
  { rewrite <- (Qfloor_Z hi). apply Qfloor_resp_le. exact Hhi. }
  unfold py_round.
  destruct (Qcompare (q - inject_Z (Qfloor q)) (1 # 2)) eqn:C.
  - destruct (Z.even (Qfloor q)); [lia|].
    destruct (Z.eq_dec (Qfloor q) hi) as [E|N]; [|lia].
    exfalso. apply Qeq_alt in C. rewrite E in C.
    assert (q == inject_Z hi + (1 # 2))%Q by (rewrite <- C; ring).
    rewrite H in Hhi. revert Hhi. unfold Qle, inject_Z, Qplus. simpl. lia.
  - lia.
  - destruct (Z.eq_dec (Qfloor q) hi) as [E|N]; [|lia].
    exfalso. apply Qgt_alt in C. rewrite E in C.
    assert (H : (0 < q - inject_Z hi)%Q).
    { apply Qlt_trans with (1 # 2)%Q; [reflexivity | exact C]. }
    apply (Qlt_minus_iff (inject_Z hi) q) in H.
    apply (Qlt_not_le _ _ H Hhi).
Qed.

(** ** The rotation hypothesis generator *)

Module GeneratorProperties.
Import RotationGenerator.

Lemma list_index_None (x : Z) (l : list Z) :
  ~ In x l -> list_index x l = Raise ValueError.
Proof.
  induction l as [|y t IH]; intros H; simpl; [reflexivity|].
  destruct (Z.eqb_spec x y) as [E|N].
  - exfalso. apply H. left. symmetry. exact E.
  - rewrite IH; [reflexivity|]. intros Hin. apply H. right. exact Hin.
Qed.

(** Popping the head and appending it, [i] times, is the cyclic rotation
    by [i] places. *)
Lemma pop0_append_times_cycle (i : nat) (l : list Z) :
  (i <= length l)%nat -> l <> [] ->
  pop0_append_times i l = Ok (cycle_left i l).
Proof.
  unfold cycle_left. revert l.
  induction i as [|i IH]; intros l Hi Hne.
  - simpl. rewrite app_nil_r. reflexivity.
  - destruct l as [|x t]; [congruence|].
    simpl in Hi. cbn [pop0_append_times pop0_append bind].
    rewrite IH.
    + f_equal. cbn [skipn firstn].
      rewrite skipn_app, firstn_app.
      replace (i - length t)%nat with O by lia.
      cbn [skipn firstn]. rewrite app_nil_r.
      rewrite <- app_assoc.
      destruct (Nat.eq_dec i (length t)) as [E|N].
      * subst i. rewrite skipn_all, firstn_all. reflexivity.
      * reflexivity.
    + rewrite length_app. simpl. lia.
    + destruct t; discriminate.
Qed.

(** C2: for a starting angle [r0] among 0, 90, 180, 270, five draws from
    the generator give four angles and then the end of the sequence
    ([StopIteration]); the four angles are the base ordering
    [0, 90, 270, 180] cyclically rotated by the index of [r0] (which is what
    the pop-and-append loop computes), they start with [r0], are pairwise
    distinct and are exactly the canonical angles. *)
Theorem generator_yields_cycle_from_start (r0 : Z) :
  canonical r0 ->
  exists (i : nat) (order : list Z),
    list_index r0 base_rotates = Ok i /\
    pop0_append_times i base_rotates = Ok order /\
    order = cycle_left i base_rotates /\
    fst (draw 5 (Created r0)) = map Ok order ++ [Raise StopIteration] /\
    length order = 4%nat /\
    hd_error order = Some r0 /\
    NoDup order /\
    (forall a, In a order <-> canonical a).
Proof.
  intros [H | [H | [H | H]]]; subst r0.
  - exists 0%nat, [0; 90; 270; 180].
    repeat split; try reflexivity;
      try (repeat constructor; simpl; intuition discriminate);
      unfold canonical; simpl; intuition lia.
  - exists 1%nat, [90; 270; 180; 0].
    repeat split; try reflexivity;
      try (repeat constructor; simpl; intuition discriminate);
      unfold canonical; simpl; intuition lia.
  - exists 3%nat, [180; 0; 90; 270].
    repeat split; try reflexivity;
      try (repeat constructor; simpl; intuition discriminate);
      unfold canonical; simpl; intuition lia.
  - exists 2%nat, [270; 180; 0; 90].
    repeat split; try reflexivity;
      try (repeat constructor; simpl; intuition discriminate);
      unfold canonical; simpl; intuition lia.
Qed.

Lemma generator_yields_cycle_from_start_witness :
  exists (i : nat) (order : list Z),
    list_index 270 base_rotates = Ok i /\
    pop0_append_times i base_rotates = Ok order /\
    order = cycle_left i base_rotates /\
    fst (draw 5 (Created 270)) = map Ok order ++ [Raise StopIteration] /\
    length order = 4%nat /\
    hd_error order = Some 270 /\
    NoDup order /\
    (forall a, In a order <-> canonical a).
Proof.
  apply (generator_yields_cycle_from_start 270).
  unfold canonical. right. right. right. reflexivity.
Defined.

Lemma draw_finished (k : nat) :
  draw k Finished = (repeat (Raise StopIteration) k, Finished).
Proof.
  induction k as [|k IH]; [reflexivity|].
  cbn [draw next]. rewrite IH. reflexivity.
Qed.

Lemma next_invalid (r0 : Z) :
  ~ canonical r0 -> next (Created r0) = (Raise ValueError, Finished).
Proof.
  intros H. unfold next.
  rewrite list_index_None; [reflexivity|].
  unfold base_rotates, canonical in *. simpl. intuition lia.
Qed.

End GeneratorProperties.

(** ** The frame face locator *)

Section LocatorProperties.

Context {cv : OpenCV}.
Import RotationGenerator.

Lemma sum_centers_spec (fs : list Rect) (ax ay : Q) (c : Z) :
  let '(x, y, c') := sum_centers fs ax ay c in
  (x == ax + Qsum (map center_x fs))%Q /\
  (y == ay + Qsum (map center_y fs))%Q /\
  c' = c + Z.of_nat (length fs).
Proof.
  revert ax ay c.
  induction fs as [|f fs IH]; intros ax ay c.
  - cbn. repeat split; try ring. 
  - cbn [sum_centers map Qsum fold_right length].
    specialize (IH (ax + center_x f)%Q (ay + center_y f)%Q (c + 1)).
    unfold center_x, center_y in IH.
    destruct (sum_centers fs _ _ _) as [[x y] c'].
    destruct IH as (Hx & Hy & Hc).
    repeat split.
    + rewrite Hx. unfold center_x, Qsum. ring.
    + rewrite Hy. unfold center_y, Qsum. ring.
    + lia.
Qed.

Lemma py_truediv_nonzero (a b : Q) :
  ~ (b == 0)%Q -> py_truediv a b = Ok (a / b)%Q.
Proof.
  intros H. unfold py_truediv.
  destruct (Qeq_bool b 0) eqn:E; [|reflexivity].
  apply Qeq_bool_iff in E. contradiction.
Qed.

Lemma inject_Z_pos_nonzero (z : Z) : 0 < z -> ~ (inject_Z z == 0)%Q.
Proof.
  intros H E. unfold Qeq, inject_Z in E. simpl in E. lia.
Qed.

(** Lines 131 to 138 compute the rounded means of the centers. *)
Lemma average_of_faces_spec (fs : list Rect) (r : Z) :
  fs <> [] ->
  average_of_faces fs r =
    Ok (Some (py_round (mean (map center_x fs)),
              py_round (mean (map center_y fs)), r)).
Proof.
  intros Hne. unfold average_of_faces.
  pose proof (sum_centers_spec fs 0 0 0) as H.
  destruct (sum_centers fs 0 0 0) as [[x y] c].
  destruct H as (Hx & Hy & Hc).
  assert (Hpos : 0 < c).
  { destruct fs; [congruence|]. simpl length in Hc. lia. }
  rewrite !py_truediv_nonzero by (apply inject_Z_pos_nonzero; exact Hpos).
  cbn [bind]. unfold mean. rewrite !length_map.
  simpl in Hc. subst c.
  rewrite (py_round_comp (x / inject_Z (Z.of_nat (length fs)))
             (Qsum (map center_x fs) / inject_Z (Z.of_nat (length fs)))).
  rewrite (py_round_comp (y / inject_Z (Z.of_nat (length fs)))
             (Qsum (map center_y fs) / inject_Z (Z.of_nat (length fs)))).
  - reflexivity.
  - rewrite Hy. field. apply inject_Z_pos_nonzero. exact Hpos.
  - rewrite Hx. field. apply inject_Z_pos_nonzero. exact Hpos.
Qed.

(** One activation of the locator that draws an angle. *)
Lemma locate_unfold (fuel : nat) (image : Image) (rotation : rotation_arg)
  (r : Z) (g' : generator) :
  next (as_generator rotation) = (Ok r, g') ->
  get_average_face_position_in_image (S fuel) image rotation =
    match rotated image r with
    | Raise e => Some (Raise e, [])
    | Ok r_image =>
        let gray := cvtColor_BGR2GRAY r_image in
        let faces_in_frame := detectMultiScale gray in
        if (length faces_in_frame =? 0)%nat then
          match
            get_average_face_position_in_image fuel image (AsGenerator g')
          with
          | None => None
          | Some (res, calls) => Some (res, gray :: calls)
          end
        else Some (average_of_faces faces_in_frame r, [gray])
    end.
Proof.
  intros H. cbn [get_average_face_position_in_image]. rewrite H. reflexivity.
Qed.

(** From a suspended generator the locator is the bounded search over the
    angles not drawn yet. *)
Lemma locate_suspended (image : Image) (rest : list Z) :
  forall (fuel : nat) (rotates : list Z) (i : nat),
    skipn (S i) rotates = rest ->
    (length rest < fuel)%nat ->
    get_average_face_position_in_image fuel image
      (AsGenerator (Suspended rotates (length rotates) i))
    = Some (search image rest).
Proof.
  induction rest as [|r rest IH]; intros fuel rotates i Hskip Hfuel.
  - destruct fuel as [|fuel]; [simpl in Hfuel; lia|].
    cbn [get_average_face_position_in_image as_generator next].
    unfold yield_at.
    assert (Hlen : (length rotates <= S i)%nat).
    { apply (f_equal (@length Z)) in Hskip.
      rewrite length_skipn in Hskip. simpl in Hskip. lia. }
    destruct (Nat.ltb_spec (S i) (length rotates)) as [L|_]; [lia|].
    reflexivity.
  - destruct fuel as [|fuel]; [simpl in Hfuel; lia|].
    assert (Hnth : nth_error rotates (S i) = Some r).
    { rewrite <- (firstn_skipn (S i) rotates) at 1.
      assert (Hlt : (S i < length rotates)%nat).
      { apply (f_equal (@length Z)) in Hskip.
        rewrite length_skipn in Hskip. simpl in Hskip. lia. }
      rewrite nth_error_app2 by (rewrite length_firstn; lia).
      rewrite length_firstn. replace (S i - Nat.min (S i) (length rotates))%nat
        with O by lia.
      rewrite Hskip. reflexivity. }
    assert (Hlt : (S i < length rotates)%nat).
    { apply nth_error_Some. rewrite Hnth. discriminate. }
    assert (Hnext : next (as_generator
                            (AsGenerator (Suspended rotates (length rotates) i)))
                    = (Ok r, Suspended rotates (length rotates) (S i))).
    { cbn [as_generator next]. unfold yield_at, list_get.
      destruct (Nat.ltb_spec (S i) (length rotates)) as [_|L]; [|lia].
      rewrite Hnth. reflexivity. }
    rewrite (locate_unfold _ _ _ _ _ Hnext).
    cbn [search].
    destruct (rotated image r) as [r_image|e]; [|reflexivity].
    cbv zeta.
    destruct (length (detectMultiScale (cvtColor_BGR2GRAY r_image)) =? 0)%nat;
      [|reflexivity].
    rewrite (IH fuel rotates (S i)).
    + destruct (search image rest). reflexivity.
    + assert (E : skipn (S (S i)) rotates = skipn 1 (skipn (S i) rotates)).
      { rewrite skipn_skipn. reflexivity. }
      rewrite E, Hskip. reflexivity.
    + simpl in Hfuel. lia.
Qed.

Lemma order_from_canonical (r0 : Z) :
  canonical r0 ->
  length (order_from r0) = 4%nat /\
  (forall a, In a (order_from r0) <-> canonical a) /\
  next (Created r0) = (Ok r0, Suspended (order_from r0) 4 0) /\
  order_from r0 = r0 :: skipn 1 (order_from r0).
Proof.
  intros [H | [H | [H | H]]]; subst r0;
    (repeat split; try reflexivity;
     unfold canonical; cbn; intuition lia).
Qed.

(** Given an integer start among the four angles, the locator is the
    bounded search over the cycle that starts there. *)
Lemma locate_from_int (fuel : nat) (image : Image) (r0 : Z) :
  canonical r0 -> (5 <= fuel)%nat ->
  get_average_face_position_in_image fuel image (AsInt r0)
  = Some (search image (order_from r0)).
Proof.
  intros Hc Hfuel.
  destruct (order_from_canonical r0 Hc) as (Hlen & _ & Hnext & Hcons).
  destruct fuel as [|fuel]; [lia|].
  rewrite (locate_unfold fuel image (AsInt r0) r0 _ Hnext).
  replace (search image (order_from r0))
    with (search image (r0 :: skipn 1 (order_from r0)))
    by (rewrite <- Hcons; reflexivity).
  cbn [search].
  destruct (rotated image r0) as [r_image|e]; [|reflexivity].
  cbv zeta.
  destruct (length (detectMultiScale (cvtColor_BGR2GRAY r_image)) =? 0)%nat;
    [|reflexivity].
  replace 4%nat with (length (order_from r0)) by exact Hlen.
  rewrite (locate_suspended image (skipn 1 (order_from r0))).
  - destruct (search image _). reflexivity.
  - reflexivity.
  - rewrite length_skipn, Hlen. lia.
Qed.

Lemma rotated_canonical (image : Image) (r : Z) :
  canonical r -> exists r_image, rotated image r = Ok r_image.
Proof.
  intros [H | [H | [H | H]]]; subst r; eexists; reflexivity.
Qed.

(** What the bounded search returns over a list of canonical angles. *)
Lemma search_spec (image : Image) (order : list Z) :
  (forall r, In r order -> canonical r) ->
  exists res calls,
    search image order = (Ok res, calls) /\
    (length calls <= length order)%nat /\
    (res = None <-> forall r, In r order -> detected image r = Ok []) /\
    (forall x y r, res = Some (x, y, r) -> In r order).
Proof.
  induction order as [|r rest IH]; intros Hc.
  - exists None, []. cbn. split; [reflexivity|]. split; [lia|]. split.
    + split; [intros _ r [] | reflexivity].
    + discriminate.
  - destruct (rotated_canonical image r (Hc r (or_introl eq_refl)))
      as [r_image Hrot].
    destruct IH as (res & calls & Hs & Hlen & Hnone & Hin).
    { intros a Ha. apply Hc. right. exact Ha. }
    cbn [search]. rewrite Hrot. cbv zeta.
    assert (Hdet : detected image r
                   = Ok (detectMultiScale (cvtColor_BGR2GRAY r_image))).
    { unfold detected. rewrite Hrot. reflexivity. }
    destruct (detectMultiScale (cvtColor_BGR2GRAY r_image))
      as [|f fs] eqn:Hfs.
    + cbn [length Nat.eqb]. rewrite Hs.
      exists res, (cvtColor_BGR2GRAY r_image :: calls).
      repeat split.
      * simpl. lia.
      * intros Hres a [Ha | Ha]; [subst a; exact Hdet|].
        apply Hnone; assumption.
      * intros Hall. apply Hnone. intros a Ha. apply Hall. right. exact Ha.
      * intros x y a Hres. right. apply (Hin x y a Hres).
    + cbn [length Nat.eqb].
      rewrite average_of_faces_spec by discriminate.
      eexists. exists [cvtColor_BGR2GRAY r_image].
      repeat split.
      * simpl. lia.
      * discriminate.
      * intros Hall. specialize (Hall r (or_introl eq_refl)).
        rewrite Hdet in Hall. discriminate.
      * intros x y a Hres. left. congruence.
Qed.

(** The images the bounded search hands to the detector are the frame
    itself and its three rotations, in grey. *)
Lemma search_calls (image : Image) (order : list Z) :
  (forall r, In r order -> canonical r) ->
  forall c, In c (snd (search image order)) ->
    c = cvtColor_BGR2GRAY image \/
    c = cvtColor_BGR2GRAY (rotate image ROTATE_90_COUNTERCLOCKWISE) \/
    c = cvtColor_BGR2GRAY (rotate image ROTATE_180) \/
    c = cvtColor_BGR2GRAY (rotate image ROTATE_90_CLOCKWISE).
Proof.
  induction order as [|r rest IH]; intros Hc c; [intros []|].
  assert (Hview :
            rotated image r = Ok image \/
            rotated image r = Ok (rotate image ROTATE_90_COUNTERCLOCKWISE) \/
            rotated image r = Ok (rotate image ROTATE_180) \/
            rotated image r = Ok (rotate image ROTATE_90_CLOCKWISE)).
  { destruct (Hc r (or_introl eq_refl)) as [E | [E | [E | E]]]; subst r;
      cbn; auto. }
  cbn [search].
  destruct (rotated image r) as [r_image|e]; [|intros []].
  cbv zeta.
  assert (Hgray :
            cvtColor_BGR2GRAY r_image = cvtColor_BGR2GRAY image \/
            cvtColor_BGR2GRAY r_image =
              cvtColor_BGR2GRAY (rotate image ROTATE_90_COUNTERCLOCKWISE) \/
            cvtColor_BGR2GRAY r_image =
              cvtColor_BGR2GRAY (rotate image ROTATE_180) \/
            cvtColor_BGR2GRAY r_image =
              cvtColor_BGR2GRAY (rotate image ROTATE_90_CLOCKWISE)).
  { destruct Hview as [E | [E | [E | E]]]; injection E as ->; auto. }
  destruct (length (detectMultiScale (cvtColor_BGR2GRAY r_image)) =? 0)%nat.
  - destruct (search image rest) as [res calls] eqn:Hs. cbn [snd].
    intros [<- | Hin]; [exact Hgray|].
    apply IH; [intros a Ha; apply Hc; right; exact Ha|].
    exact Hin.
  - cbn [snd]. intros [<- | []]. exact Hgray.
Qed.

(** C3: for an integer start angle among 0, 90, 180, 270 the locator
    returns (with fuel for its five activations) after at most four
    detector calls, each on the grey frame or on one of its three
    rotations, and the result is [None] exactly when the detector reports
    no face on the frame, on the frame turned a quarter counterclockwise
    (hypothesis 90), on the frame turned by a half (hypothesis 180) and on
    the frame turned a quarter clockwise (hypothesis 270). *)
Theorem locator_none_iff_no_face_at_any_rotation
  (fuel : nat) (image : Image) (r0 : Z) :
  canonical r0 -> (5 <= fuel)%nat ->
  exists res calls,
    get_average_face_position_in_image fuel image (AsInt r0)
      = Some (Ok res, calls) /\
    (length calls <= 4)%nat /\
    (forall c, In c calls ->
       c = cvtColor_BGR2GRAY image \/
       c = cvtColor_BGR2GRAY (rotate image ROTATE_90_COUNTERCLOCKWISE) \/
       c = cvtColor_BGR2GRAY (rotate image ROTATE_180) \/
       c = cvtColor_BGR2GRAY (rotate image ROTATE_90_CLOCKWISE)) /\
    (res = None <->
     detectMultiScale (cvtColor_BGR2GRAY image) = [] /\
     detectMultiScale
       (cvtColor_BGR2GRAY (rotate image ROTATE_90_COUNTERCLOCKWISE)) = [] /\
     detectMultiScale (cvtColor_BGR2GRAY (rotate image ROTATE_180)) = [] /\
     detectMultiScale
       (cvtColor_BGR2GRAY (rotate image ROTATE_90_CLOCKWISE)) = []).
Proof.
  intros Hc Hfuel.
  destruct (order_from_canonical r0 Hc) as (Hlen & Hmem & _ & _).
  assert (Hcan : forall r, In r (order_from r0) -> canonical r)
    by (intros r Hr; apply Hmem; exact Hr).
  destruct (search_spec image (order_from r0) Hcan)
    as (res & calls & Hs & Hl & Hn & _).
  exists res, calls. split; [|split; [|split]].
  - rewrite locate_from_int by assumption. rewrite Hs. reflexivity.
  - lia.
  - intros c Hin. apply (search_calls image (order_from r0) Hcan).
    rewrite Hs. exact Hin.
  - rewrite Hn. split.
    + intros Hall.
      assert (H0 := Hall 0 (proj2 (Hmem 0) (or_introl eq_refl))).
      assert (H90 := Hall 90
                       (proj2 (Hmem 90) (or_intror (or_introl eq_refl)))).
      assert (H180 := Hall 180
                        (proj2 (Hmem 180)
                           (or_intror (or_intror (or_introl eq_refl))))).
      assert (H270 := Hall 270
                        (proj2 (Hmem 270)
                           (or_intror (or_intror (or_intror eq_refl))))).
      cbn in H0, H90, H180, H270.
      repeat split; congruence.
    + intros (H0 & H90 & H180 & H270) r Hr.
      destruct (Hcan r Hr) as [E | [E | [E | E]]]; subst r; cbn;
        congruence.
Qed.

(** The rotation the locator returns from a canonical start is canonical. *)
Lemma locator_rotation_canonical (fuel : nat) (image : Image) (r0 : Z)
  (x y r : Z) (calls : list Image) :
  canonical r0 ->
  get_average_face_position_in_image fuel image (AsInt r0)
    = Some (Ok (Some (x, y, r)), calls) ->
  canonical r.
Proof.
  intros Hc H.
  destruct (order_from_canonical r0 Hc) as (Hlen & Hmem & Hnext & Hcons).
  destruct (search_spec image (order_from r0)) as (res & calls' & Hs & _ & _ & Hin).
  { intros a Ha. apply Hmem. exact Ha. }
  destruct (le_lt_dec 5 fuel) as [Hf | Hf].
  - rewrite locate_from_int in H by assumption.
    rewrite Hs in H. injection H as H _. subst res.
    apply Hmem. apply (Hin x y r eq_refl).
  - (* with less fuel a result, if any, is the one of the search too *)
    revert H. rewrite Hcons in Hs. clear Hin.
    assert (G : forall n rest i rotates res' calls',
      skipn (S i) rotates = rest ->
      (forall a, In a rest -> canonical a) ->
      get_average_face_position_in_image n image
        (AsGenerator (Suspended rotates (length rotates) i))
        = Some (Ok (Some res'), calls') ->
      canonical (snd res')).
    { induction n as [|n IHn]; intros rest i rotates res' calls'' Hsk Hcan Hrun;
        [discriminate|].
      destruct rest as [|a rest].
      - rewrite (locate_suspended image [] (S n) rotates i Hsk) in Hrun
          by (simpl; lia).
        discriminate.
      - assert (Hlt : (S i < length rotates)%nat).
        { apply (f_equal (@length Z)) in Hsk.
          rewrite length_skipn in Hsk. simpl in Hsk. lia. }
        assert (Hnth : nth_error rotates (S i) = Some a).
        { rewrite <- (firstn_skipn (S i) rotates) at 1.
          rewrite nth_error_app2 by (rewrite length_firstn; lia).
          rewrite length_firstn.
          replace (S i - Nat.min (S i) (length rotates))%nat with O by lia.
          rewrite Hsk. reflexivity. }
        assert (Hnx : next (as_generator
                     (AsGenerator (Suspended rotates (length rotates) i)))
                     = (Ok a, Suspended rotates (length rotates) (S i))).
        { cbn [as_generator next]. unfold yield_at, list_get.
          destruct (Nat.ltb_spec (S i) (length rotates)) as [_|L]; [|lia].
          rewrite Hnth. reflexivity. }
        rewrite (locate_unfold _ _ _ _ _ Hnx) in Hrun.
        destruct (rotated_canonical image a (Hcan a (or_introl eq_refl)))
          as [r_image Hrot].
        rewrite Hrot in Hrun. cbv zeta in Hrun.
        destruct (detectMultiScale (cvtColor_BGR2GRAY r_image))
          as [|f fs] eqn:Hfs.
        + cbn [length Nat.eqb] in Hrun.
          destruct (get_average_face_position_in_image n image _)
            as [[res0 calls0]|] eqn:Hrec; [|discriminate].
          injection Hrun as Hres _. subst res0.
          apply (IHn rest (S i) rotates res' calls0).
          * assert (E : skipn (S (S i)) rotates
                        = skipn 1 (skipn (S i) rotates)).
            { rewrite skipn_skipn. reflexivity. }
            rewrite E, Hsk. reflexivity.
          * intros b Hb. apply Hcan. right. exact Hb.
          * exact Hrec.
        + cbn [length Nat.eqb] in Hrun.
          rewrite average_of_faces_spec in Hrun by discriminate.
          injection Hrun as Hres _. subst res'.
          apply Hcan. left. reflexivity. }
    intros H.
    destruct fuel as [|fuel]; [discriminate|].
    rewrite (locate_unfold fuel image (AsInt r0) r0 _ Hnext) in H.
    destruct (rotated_canonical image r0 Hc) as [r_image Hrot].
    rewrite Hrot in H. cbv zeta in H.
    destruct (detectMultiScale (cvtColor_BGR2GRAY r_image)) as [|f fs] eqn:Hfs.
    + cbn [length Nat.eqb] in H.
      destruct (get_average_face_position_in_image fuel image _)
        as [[res0 calls0]|] eqn:Hrec; [|discriminate].
      injection H as Hres _. subst res0.
      replace 4%nat with (length (order_from r0)) in Hrec by exact Hlen.
      apply (G fuel (skipn 1 (order_from r0)) O (order_from r0)
               (x, y, r) calls0 eq_refl); [|exact Hrec].
      intros a Ha. apply Hmem. rewrite Hcons. right. exact Ha.
    + cbn [length Nat.eqb] in H.
      rewrite average_of_faces_spec in H by discriminate.
      injection H as _ _ Hr _. subst r. exact Hc.
Qed.

Lemma pop0_append_times_length (i : nat) :
  forall l l', pop0_append_times i l = Ok l' -> length l' = length l.
Proof.
  induction i as [|i IH]; intros l l'; cbn [pop0_append_times].
  - intros H. injection H as <-. reflexivity.
  - destruct l as [|x t]; cbn [pop0_append bind]; [discriminate|].
    intros H. rewrite (IH _ _ H), length_app. simpl. lia.
Qed.

(** A draw that yields leaves strictly fewer values to yield. *)
Lemma next_remaining (g g' : generator) (v : Z) :
  next g = (Ok v, g') -> (remaining g' < remaining g)%nat.
Proof.
  destruct g as [r0 | rotates n i |]; cbn [next]; [| |discriminate].
  - destruct (i <- list_index r0 base_rotates ;;
              pop0_append_times i base_rotates) as [rotates|e] eqn:E;
      [|discriminate].
    assert (Hlen : length rotates = length base_rotates).
    { destruct (list_index r0 base_rotates) as [i|e]; [|discriminate].
      cbn [bind] in E. apply (pop0_append_times_length _ _ _ E). }
    unfold yield_at.
    destruct (Nat.ltb_spec 0 (length rotates)) as [_|_]; [|discriminate].
    destruct (list_get rotates 0); [|discriminate].
    intros Hy. injection Hy as _ <-. cbn [remaining].
    change (length base_rotates) with 4%nat in *. lia.
  - unfold yield_at.
    destruct (Nat.ltb_spec (S i) n) as [Hlt|_]; [|discriminate].
    destruct (list_get rotates (S i)); [|discriminate].
    intros Hy. injection Hy as _ <-. cbn [remaining]. lia.
Qed.

(** The recursion of the locator ends, whatever generator it is given:
    one activation per value the generator can still yield, and one more. *)
Lemma locator_terminates (image : Image) (fuel : nat) :
  forall rotation : rotation_arg,
    (remaining (as_generator rotation) < fuel)%nat ->
    get_average_face_position_in_image fuel image rotation <> None.
Proof.
  induction fuel as [|fuel IH]; intros rotation Hfuel; [lia|].
  destruct (next (as_generator rotation)) as [[v|e] g'] eqn:Hnext.
  - rewrite (locate_unfold _ _ _ _ _ Hnext).
    destruct (rotated image v) as [r_image|e]; [|discriminate].
    cbv zeta.
    destruct (length (detectMultiScale (cvtColor_BGR2GRAY r_image)) =? 0)%nat;
      [|discriminate].
    pose proof (next_remaining _ _ _ Hnext) as Hless.
    specialize (IH (AsGenerator g')). cbn [as_generator] in IH.
    destruct (get_average_face_position_in_image fuel image (AsGenerator g'))
      as [[res calls]|]; [discriminate|].
    exfalso. apply IH; [lia | reflexivity].
  - cbn [get_average_face_position_in_image]. rewrite Hnext.
    destruct e; discriminate.
Qed.

(** C4: when the detector reports at least one face at the rotation
    hypothesis just drawn, the locator returns the rounded mean of the
    centers [(x + w/2, y + h/2)] of those faces together with that rotation,
    after this single detector call; and one face [(10, 20, 30, 40)] seen at
    rotation 0 gives [(25, 40, 0)]. *)
Theorem locator_returns_rounded_mean_center :
  (forall (fuel : nat) (image r_image : Image) (rotation : rotation_arg)
          (r : Z) (g' : generator),
      next (as_generator rotation) = (Ok r, g') ->
      rotated image r = Ok r_image ->
      detectMultiScale (cvtColor_BGR2GRAY r_image) <> [] ->
      get_average_face_position_in_image (S fuel) image rotation =
        Some
          (Ok (Some
                 (py_round (mean (map center_x
                    (detectMultiScale (cvtColor_BGR2GRAY r_image)))),
                  py_round (mean (map center_y
                    (detectMultiScale (cvtColor_BGR2GRAY r_image)))),
                  r)),
           [cvtColor_BGR2GRAY r_image]))
  /\
  (forall (fuel : nat) (image : Image),
      detectMultiScale (cvtColor_BGR2GRAY image) = [mkRect 10 20 30 40] ->
      get_average_face_position_in_image (S fuel) image (AsInt 0) =
        Some (Ok (Some (25, 40, 0)), [cvtColor_BGR2GRAY image])).
Proof.
  assert (General : forall fuel image r_image rotation r g',
    next (as_generator rotation) = (Ok r, g') ->
    rotated image r = Ok r_image ->
    detectMultiScale (cvtColor_BGR2GRAY r_image) <> [] ->
    get_average_face_position_in_image (S fuel) image rotation =
      Some
        (Ok (Some
               (py_round (mean (map center_x
                  (detectMultiScale (cvtColor_BGR2GRAY r_image)))),
                py_round (mean (map center_y
                  (detectMultiScale (cvtColor_BGR2GRAY r_image)))),
                r)),
         [cvtColor_BGR2GRAY r_image])).
  { intros fuel image r_image rotation r g' Hnext Hrot Hne.
    rewrite (locate_unfold _ _ _ _ _ Hnext), Hrot. cbv zeta.
    destruct (detectMultiScale (cvtColor_BGR2GRAY r_image)) as [|f fs] eqn:E;
      [congruence|].
    cbn [length Nat.eqb].
    rewrite average_of_faces_spec by discriminate. reflexivity. }
  split; [exact General|].
  intros fuel image Hone.
  rewrite (General fuel image image (AsInt 0) 0
             (Suspended [0; 90; 270; 180] 4 0)).
  - rewrite Hone. reflexivity.
  - reflexivity.
  - reflexivity.
  - rewrite Hone. discriminate.
Qed.

(** C9: for a start angle outside 0, 90, 180, 270 the first draw from the
    generator raises [ValueError] (from [rotates.index]), no draw ever
    gives an angle, and the locator called with such an integer raises the
    same error instead of returning, without calling the detector. *)
Theorem invalid_start_angle_raises_value_error (r0 : Z) :
  ~ canonical r0 ->
  next (Created r0) = (Raise ValueError, Finished) /\
  (forall k : nat,
      fst (draw (S k) (Created r0))
      = Raise ValueError :: repeat (Raise StopIteration) k) /\
  (forall (fuel : nat) (image : Image),
      get_average_face_position_in_image (S fuel) image (AsInt r0)
      = Some (Raise ValueError, [])).
Proof.
  intros H.
  pose proof (GeneratorProperties.next_invalid r0 H) as Hnext.
  repeat split.
  - exact Hnext.
  - intros k. cbn [draw]. rewrite Hnext.
    rewrite GeneratorProperties.draw_finished. reflexivity.
  - intros fuel image.
    cbn [get_average_face_position_in_image as_generator].
    rewrite Hnext. reflexivity.
Qed.

End LocatorProperties.

(** The three locator properties on simulated frames. *)

Lemma locator_none_iff_no_face_at_any_rotation_witness :
  (exists res calls,
      get_average_face_position_in_image (cv := Sim.cv) 5
        (Sim.lying [Sim.one_face]) (AsInt 0) = Some (Ok res, calls) /\
      res = Some (25, 40, 90) /\
      calls = [Sim.lying [Sim.one_face];
               Sim.mkImage (Sim.seen (Sim.lying [Sim.one_face]))
                 (Some ROTATE_90_COUNTERCLOCKWISE)] /\
      (res = None <->
       Sim.seen (Sim.lying [Sim.one_face]) None = [] /\
       Sim.seen (Sim.lying [Sim.one_face])
         (Some ROTATE_90_COUNTERCLOCKWISE) = [] /\
       Sim.seen (Sim.lying [Sim.one_face]) (Some ROTATE_180) = [] /\
       Sim.seen (Sim.lying [Sim.one_face]) (Some ROTATE_90_CLOCKWISE) = []))
  /\
  (exists calls,
      get_average_face_position_in_image (cv := Sim.cv) 5 Sim.blank (AsInt 90)
        = Some (Ok None, calls) /\
      length calls = 4%nat).
Proof.
  split.
  - destruct (locator_none_iff_no_face_at_any_rotation (cv := Sim.cv) 5
                (Sim.lying [Sim.one_face]) 0
                (or_introl eq_refl) (le_n 5))
      as (res & calls & Hrun & _ & _ & Hiff).
    exists res, calls.
    split; [exact Hrun|].
    assert (E : Some (Ok res, calls)
                = Some (Ok (Some (25, 40, 90)),
                        [Sim.lying [Sim.one_face];
                         Sim.mkImage (Sim.seen (Sim.lying [Sim.one_face]))
                           (Some ROTATE_90_COUNTERCLOCKWISE)])).
    { rewrite <- Hrun. reflexivity. }
    injection E as -> ->.
    split; [reflexivity|]. split; [reflexivity|]. exact Hiff.
  - destruct (locator_none_iff_no_face_at_any_rotation (cv := Sim.cv) 5
                Sim.blank 90
                (or_intror (or_introl eq_refl)) (le_n 5))
      as (res & calls & Hrun & _ & _ & Hiff).
    assert (Hnone : res = None).
    { apply Hiff. repeat split; reflexivity. }
    subst res. exists calls. split; [exact Hrun|].
    assert (E : Some (Ok (@None (Z * Z * Z)), calls)
                = Some (Ok None,
                        [Sim.mkImage (Sim.seen Sim.blank)
                           (Some ROTATE_90_COUNTERCLOCKWISE);
                         Sim.mkImage (Sim.seen Sim.blank)
                           (Some ROTATE_90_CLOCKWISE);
                         Sim.mkImage (Sim.seen Sim.blank) (Some ROTATE_180);
                         Sim.blank])).
    { rewrite <- Hrun. reflexivity. }
    injection E as ->. reflexivity.
Defined.

Lemma locator_returns_rounded_mean_center_witness :
  get_average_face_position_in_image (cv := Sim.cv) 1
    (Sim.lying [Sim.one_face; mkRect 11 20 30 41])
    (AsGenerator (RotationGenerator.Suspended [0; 90; 270; 180] 4 0))
  = Some (Ok (Some (26, 40, 90)),
          [Sim.mkImage (Sim.seen (Sim.lying [Sim.one_face; mkRect 11 20 30 41]))
             (Some ROTATE_90_COUNTERCLOCKWISE)])
  /\
  get_average_face_position_in_image (cv := Sim.cv) 1
    (Sim.upright [Sim.one_face]) (AsInt 0)
  = Some (Ok (Some (25, 40, 0)), [Sim.upright [Sim.one_face]]).
Proof.
  split.
  - apply (proj1 (locator_returns_rounded_mean_center (cv := Sim.cv)) 0%nat
             (Sim.lying [Sim.one_face; mkRect 11 20 30 41])
             (Sim.mkImage
                (Sim.seen (Sim.lying [Sim.one_face; mkRect 11 20 30 41]))
                (Some ROTATE_90_COUNTERCLOCKWISE))
             (AsGenerator (RotationGenerator.Suspended [0; 90; 270; 180] 4 0))
             90
             (RotationGenerator.Suspended [0; 90; 270; 180] 4 1)).
    + reflexivity.
    + reflexivity.
    + simpl. discriminate.
  - apply (proj2 (locator_returns_rounded_mean_center (cv := Sim.cv)) 0%nat
             (Sim.upright [Sim.one_face])).
    reflexivity.
Defined.

Lemma invalid_start_angle_raises_value_error_witness :
  RotationGenerator.next (RotationGenerator.Created 45)
    = (Raise ValueError, RotationGenerator.Finished) /\
  (forall k : nat,
      fst (RotationGenerator.draw (S k) (RotationGenerator.Created 45))
      = Raise ValueError :: repeat (Raise StopIteration) k) /\
  (forall (fuel : nat) (image : Sim.image),
      get_average_face_position_in_image (cv := Sim.cv) (S fuel) image (AsInt 45)
      = Some (Raise ValueError, [])).
Proof.
  apply (invalid_start_angle_raises_value_error (cv := Sim.cv) 45).
  unfold RotationGenerator.canonical. lia.
Defined.

(** ** The clip orientation estimator *)

Section ClipProperties.

Context {cv : OpenCV}.
Import RotationGenerator.

Lemma faces_shape (d : dict (list position)) :
  keys d = canonical_keys ->
  exists a b c e, d = [(0, a); (90, b); (180, c); (270, e)].
Proof.
  destruct d as [|[k1 a] [|[k2 b] [|[k3 c] [|[k4 e] [|? ?]]]]];
    cbn; intros H; try discriminate.
  injection H as -> -> -> ->. exists a, b, c, e. reflexivity.
Qed.

Lemma initial_invariant (capture0 : Capture) :
  loop_invariant 2 (initial capture0).
Proof.
  unfold loop_invariant, initial. cbn.
  repeat split.
  - left. reflexivity.
  - repeat constructor.
  - left. reflexivity.
Qed.

Lemma loop_invariant_weaken (s : loop_state) :
  loop_invariant 2 s -> loop_invariant 3 s.
Proof.
  intros (Hk & Hc & Hf & Hr). repeat split; try assumption.
  eapply Forall_impl; [|exact Hf]. cbn. intros. lia.
Qed.

Ltac invert_Forall :=
  repeat match goal with
         | H : Forall _ (_ :: _) |- _ => inversion H; clear H; subst
         | H : Forall _ [] |- _ => clear H
         end.

(** Lines 61 to 65 under the invariant: the group of the returned rotation
    grows by one, and the exit test looks at that group. *)
Lemma record_face_invariant (s : loop_state) (x y r' : Z) :
  loop_invariant 2 s -> canonical r' ->
  exists faces' stop,
    record_face s (Some (x, y, r')) = Ok (faces', r', stop) /\
    keys faces' = canonical_keys /\
    (exists group, dict_get faces' r' = Ok group /\ group <> []) /\
    Forall (fun kv => (length (snd kv) <= 3)%nat) faces' /\
    (stop = false -> Forall (fun kv => (length (snd kv) <= 2)%nat) faces').
Proof.
  intros (Hk & _ & Hf & _) Hc.
  destruct (faces_shape _ Hk) as (a & b & c & e & Hshape).
  unfold record_face. rewrite Hshape in *. clear Hshape Hk.
  invert_Forall. cbn [snd] in *.
  destruct Hc as [H | [H | [H | H]]]; subst r';
    cbn [dict_append dict_get dict_modify bind Z.eqb Pos.eqb];
    (eexists; eexists; split; [reflexivity|]);
    (split; [reflexivity|]);
    (split;
     [ eexists; split;
       [ reflexivity
       | intros E; apply (f_equal (@length position)) in E;
         rewrite length_app in E; simpl in E; lia ] |]);
    (split;
     [ repeat apply Forall_cons; try apply Forall_nil;
       cbn [snd]; rewrite ?length_app; simpl; lia
     | intros Hstop; apply Nat.ltb_ge in Hstop;
       repeat apply Forall_cons; try apply Forall_nil;
       cbn [snd]; solve [lia | exact Hstop] ]).
Qed.

(** A pass through the loop body that goes on to the next one. *)
Lemma loop_body_continue (lfuel : nat) (metadata : option Metadata.t)
  (s s' : loop_state) :
  loop_invariant 2 s ->
  loop_body lfuel metadata s = Some (Ok (Continue s')) ->
  loop_invariant 2 s' /\
  frames_counter s' = frames_counter s + 1 /\
  exists fps position,
    attr metadata Metadata.fps = Ok fps /\
    py_mul_int fps (frames_counter s + 1) = Ok position /\
    capture_set (snd (read (capture s))) position = Ok (capture s').
Proof.
  intros Hinv. unfold loop_body.
  destruct (read (capture s)) as [[image|] c1]; [|discriminate].
  destruct (get_average_face_position_in_image lfuel image (AsInt (rotation s)))
    as [[[found|e] calls]|] eqn:L; try discriminate.
  destruct found as [[[x y] r']|].
  - assert (Hc : canonical r').
    { destruct Hinv as (_ & Hrot & _).
      exact (locator_rotation_canonical _ _ _ _ _ _ _ Hrot L). }
    destruct (record_face_invariant s x y r' Hinv Hc)
      as (faces' & stop & Hrec & Hk & Hg & _ & H2).
    rewrite Hrec. cbn [bind].
    destruct stop; [discriminate|].
    destruct metadata as [m|]; [|discriminate].
    cbn [attr bind].
    destruct (py_mul_int (Metadata.fps m) (frames_counter s + 1))
      as [position|e] eqn:Hmul; [|discriminate].
    cbn [bind].
    destruct (capture_set c1 position) as [c2|e] eqn:Hset; [|discriminate].
    cbn [bind]. intros H. injection H as <-. cbn.
    repeat split; try assumption.
    + apply H2. reflexivity.
    + right. exact Hg.
    + exists (Metadata.fps m), position. repeat split; assumption.
  - cbn [record_face bind].
    destruct metadata as [m|]; [|discriminate].
    cbn [attr bind].
    destruct (py_mul_int (Metadata.fps m) (frames_counter s + 1))
      as [position|e] eqn:Hmul; [|discriminate].
    cbn [bind].
    destruct (capture_set c1 position) as [c2|e] eqn:Hset; [|discriminate].
    cbn [bind]. intros H. injection H as <-. cbn.
    destruct Hinv as (Hk & Hc & Hf & Hr).
    repeat split; try assumption.
    exists (Metadata.fps m), position. repeat split; assumption.
Qed.

(** A pass through the loop body that leaves the loop. *)
Lemma loop_body_break (lfuel : nat) (metadata : option Metadata.t)
  (s s' : loop_state) :
  loop_invariant 2 s ->
  loop_body lfuel metadata s = Some (Ok (Break s')) ->
  loop_invariant 3 s' /\ frames_counter s' = frames_counter s.
Proof.
  intros Hinv. unfold loop_body.
  destruct (read (capture s)) as [[image|] c1].
  - destruct (get_average_face_position_in_image lfuel image
                (AsInt (rotation s)))
      as [[[found|e] calls]|] eqn:L; try discriminate.
    destruct found as [[[x y] r']|].
    + assert (Hc : canonical r').
      { destruct Hinv as (_ & Hrot & _).
        exact (locator_rotation_canonical _ _ _ _ _ _ _ Hrot L). }
      destruct (record_face_invariant s x y r' Hinv Hc)
        as (faces' & stop & Hrec & Hk & Hg & H3 & _).
      rewrite Hrec. cbn [bind].
      destruct stop.
      * intros H. injection H as <-. cbn.
        repeat split; try assumption. right. exact Hg.
      * destruct metadata as [m|]; [|discriminate].
        cbn [attr bind].
        destruct (py_mul_int (Metadata.fps m) (frames_counter s + 1));
          [|discriminate].
        cbn [bind]. destruct (capture_set c1 a); discriminate.
    + cbn [record_face bind].
      destruct metadata as [m|]; [|discriminate].
      cbn [attr bind].
      destruct (py_mul_int (Metadata.fps m) (frames_counter s + 1));
        [|discriminate].
      cbn [bind]. destruct (capture_set c1 a); discriminate.
  - intros H. injection H as <-.
    split; [|reflexivity].
    apply loop_invariant_weaken in Hinv.
    exact Hinv.
Qed.

Lemma at_head_invariant (lfuel : nat) (metadata : option Metadata.t)
  (capture0 : Capture) (s : loop_state) :
  at_head lfuel metadata capture0 s -> loop_invariant 2 s.
Proof.
  induction 1 as [|s s' _ IH Hbody].
  - apply initial_invariant.
  - apply (loop_body_continue _ _ _ _ IH Hbody).
Qed.

Lemma visited_invariant (lfuel : nat) (metadata : option Metadata.t)
  (capture0 : Capture) (s : loop_state) :
  visited lfuel metadata capture0 s -> loop_invariant 3 s.
Proof.
  intros [s' H | s0 s' H Hbody].
  - apply loop_invariant_weaken. apply (at_head_invariant _ _ _ _ H).
  - apply (loop_body_break _ _ _ _ (at_head_invariant _ _ _ _ H) Hbody).
Qed.

(** The state in which [while True] is left has been visited. *)
Lemma while_true_visited (lfuel : nat) (metadata : option Metadata.t)
  (capture0 : Capture) (fuel : nat) :
  forall s0 s,
    at_head lfuel metadata capture0 s0 ->
    while_true fuel lfuel metadata s0 = Some (Ok s) ->
    visited lfuel metadata capture0 s.
Proof.
  induction fuel as [|fuel IH]; intros s0 s Hhead; [discriminate|].
  cbn [while_true].
  destruct (loop_body lfuel metadata s0) as [[[s1|s1]|e]|] eqn:Hbody;
    try discriminate.
  - apply IH. apply (head_continue _ _ _ s0 s1 Hhead Hbody).
  - intros H. injection H as <-.
    apply (visited_break _ _ _ s0 s1 Hhead Hbody).
Qed.

Lemma dict_get_In {V : Type} (d : dict V) (k : Z) (v : V) :
  dict_get d k = Ok v -> In (k, v) d.
Proof.
  induction d as [|[k' v'] t IH]; cbn; [discriminate|].
  destruct (Z.eqb_spec k k') as [->|_].
  - intros H. injection H as ->. left. reflexivity.
  - intros H. right. apply IH. exact H.
Qed.

(** The selection loop, for any dict and any starting values: either no
    group is longer than the starting maximum and the rotation is kept, or
    the result is the key of the first group that is a longest one. *)
Lemma select_rotation_spec (items : dict (list position)) :
  forall (max : nat) (rot : Z),
    (Forall (fun kv => (length (snd kv) <= max)%nat) items /\
     select_rotation items max rot = rot)
    \/
    (exists before group after,
        items = before ++ (select_rotation items max rot, group) :: after /\
        (max < length group)%nat /\
        Forall (fun kv => (length (snd kv) < length group)%nat) before /\
        Forall (fun kv => (length (snd kv) <= length group)%nat) after).
Proof.
  induction items as [|[k g] rest IH]; intros max rot.
  - left. split; [constructor | reflexivity].
  - cbn [select_rotation].
    destruct (Nat.ltb_spec max (length g)) as [Hlt | Hge].
    + right.
      destruct (IH (length g) k) as [[Hall Hsel] | (bf & gr & af & E & Hm & Hb & Ha)].
      * exists [], g, rest. rewrite Hsel. cbn.
        repeat split; [exact Hlt | constructor | exact Hall].
      * exists ((k, g) :: bf), gr, af. cbn. rewrite <- E.
        repeat split; try assumption; [lia|].
        constructor; [cbn; lia | exact Hb].
    + destruct (IH max rot) as [[Hall Hsel] | (bf & gr & af & E & Hm & Hb & Ha)].
      * left. split; [|exact Hsel]. constructor; [cbn; lia | exact Hall].
      * right. exists ((k, g) :: bf), gr, af. cbn. rewrite <- E.
        repeat split; try assumption.
        constructor; [cbn; lia | exact Hb].
Qed.

(** After the loop the selected rotation is canonical and is the first key
    of [faces] with a longest group. *)
Lemma selected_first_longest (s : loop_state) :
  loop_invariant 3 s ->
  canonical (select_rotation (faces s) 0 (rotation s)) /\
  first_longest (faces s) (select_rotation (faces s) 0 (rotation s)).
Proof.
  intros (Hk & Hc & Hf & Hr).
  destruct (select_rotation_spec (faces s) 0 (rotation s))
    as [[Hall Hsel] | (bf & gr & af & E & Hm & Hb & Ha)].
  - rewrite Hsel. split; [exact Hc|].
    assert (H0 : rotation s = 0).
    { destruct Hr as [H0 | (group & Hget & Hne)]; [exact H0|].
      apply dict_get_In in Hget.
      rewrite Forall_forall in Hall. specialize (Hall _ Hget). cbn in Hall.
      destruct group; [congruence | simpl in Hall; lia]. }
    rewrite H0.
    destruct (faces_shape _ Hk) as (a & b & c & e & Hshape).
    exists [], a, [(90, b); (180, c); (270, e)].
    rewrite Hshape in *. split; [reflexivity|]. split; [constructor|].
    inversion Hall; subst.
    eapply Forall_impl; [|eassumption]. cbn. intros. lia.
  - split.
    + assert (Hin : In (select_rotation (faces s) 0 (rotation s))
                      (keys (faces s))).
      { unfold keys. rewrite E at 2. rewrite map_app. apply in_or_app.
        right. left. reflexivity. }
      rewrite Hk in Hin. unfold canonical, canonical_keys in *.
      cbn in Hin. intuition lia.
    + exists bf, gr, af. repeat split; assumption.
Qed.

Lemma while_true_invariant (fuel lfuel : nat) (metadata : option Metadata.t)
  (capture0 : Capture) (s : loop_state) :
  while_true fuel lfuel metadata (initial capture0) = Some (Ok s) ->
  loop_invariant 3 s.
Proof.
  intros H. apply (visited_invariant lfuel metadata capture0).
  apply (while_true_visited _ _ _ fuel (initial capture0)); [constructor|exact H].
Qed.

(** C1: whenever the estimator returns, the returned rotation is the first
    key, in the order 0, 90, 180, 270 of the dict, whose observation list is
    a longest one: every earlier list is strictly shorter, no later list is
    longer. *)
Theorem returned_rotation_is_first_longest
  (fuel lfuel : nat) (capture0 : Capture) (metadata : option Metadata.t)
  (bx by_ r : Z) :
  get_average_faces_position_in_clip fuel lfuel capture0 metadata
    = Some (Ok (bx, by_, r)) ->
  exists s,
    while_true fuel lfuel metadata (initial capture0) = Some (Ok s) /\
    keys (faces s) = [0; 90; 180; 270] /\
    r = select_rotation (faces s) 0 (rotation s) /\
    first_longest (faces s) r.
Proof.
  unfold get_average_faces_position_in_clip.
  destruct (while_true fuel lfuel metadata (initial capture0))
    as [[s|e]|] eqn:Hloop; try discriminate.
  intros H. injection H as H.
  exists s. split; [reflexivity|].
  pose proof (while_true_invariant _ _ _ _ _ Hloop) as Hinv.
  assert (Hr : r = select_rotation (faces s) 0 (rotation s)).
  { unfold after_loop in H.
    destruct (clip_size _ _); [|discriminate]. cbn [bind] in H.
    destruct (dict_get _ _); [|discriminate]. cbn [bind] in H.
    destruct (average_buckets _ _); [|discriminate]. cbn [bind] in H.
    injection H as _ _ <-. reflexivity. }
  split; [apply Hinv|]. split; [exact Hr|].
  rewrite Hr. apply selected_first_longest. exact Hinv.
Qed.

Lemma clip_size_canonical (m : Metadata.t) (r : Z) :
  canonical r ->
  clip_size (Some m) r =
    Ok (if (r =? 90) || (r =? 270)
        then (Metadata.height m, Metadata.width m)
        else (Metadata.width m, Metadata.height m)).
Proof.
  intros [H | [H | [H | H]]]; subst r; reflexivity.
Qed.

(** C7: at the end of every run, the size used for bucketing is
    (height, width) when the selected rotation is 90 or 270 and
    (width, height) otherwise, and the estimator's result is the bucket
    average over the thresholds [side/3, side*2/3, side] built from that
    size; with rotation 90, width 1920 and height 1080 the thresholds along
    x are built from 1080 and those along y from 1920. *)
Theorem bucketing_lines_use_swapped_size_for_90_and_270 :
  (forall (fuel lfuel : nat) (capture0 : Capture) (m : Metadata.t)
          (s : loop_state),
      while_true fuel lfuel (Some m) (initial capture0) = Some (Ok s) ->
      let r := select_rotation (faces s) 0 (rotation s) in
      let size :=
        if (r =? 90) || (r =? 270)
        then (Metadata.height m, Metadata.width m)
        else (Metadata.width m, Metadata.height m) in
      canonical r /\
      clip_size (Some m) r = Ok size /\
      get_average_faces_position_in_clip fuel lfuel capture0 (Some m) =
        Some (group <- dict_get (faces s) r ;;
              xy <- average_buckets group
                      (thirds (fst size), thirds (snd size)) ;;
              Ok (fst xy, snd xy, r)))
  /\
  (forall (rot : Q) (dur fps : py_value),
      clip_size (Some (Metadata.mk 1920 1080 rot dur fps)) 90
        = Ok (1080, 1920) /\
      lines_of 1080 1920 =
        ([inject_Z 1080 / 3; inject_Z 1080 * 2 / 3; inject_Z 1080]%Q,
         [inject_Z 1920 / 3; inject_Z 1920 * 2 / 3; inject_Z 1920]%Q)).
Proof.
  split.
  - intros fuel lfuel capture0 m s Hloop r size.
    pose proof (while_true_invariant _ _ _ _ _ Hloop) as Hinv.
    destruct (selected_first_longest s Hinv) as [Hc _].
    fold r in Hc.
    assert (Hsize : clip_size (Some m) r = Ok size).
    { apply clip_size_canonical. exact Hc. }
    repeat split; [exact Hc | exact Hsize |].
    unfold get_average_faces_position_in_clip. rewrite Hloop.
    unfold after_loop. fold r. rewrite Hsize. reflexivity.
  - intros rot dur fps. split; reflexivity.
Qed.

(** C5 (what the code does): when the loop ends with every observation
    list empty, and the clip has metadata, the estimator raises
    [ZeroDivisionError]; this is so in particular when the first read
    captures no frame, where a clip without metadata raises
    [AttributeError] instead. *)
Theorem zero_observations_raise_division_error :
  (forall (fuel lfuel : nat) (capture0 : Capture) (m : Metadata.t)
          (s : loop_state),
      while_true fuel lfuel (Some m) (initial capture0) = Some (Ok s) ->
      Forall (fun kv => snd kv = []) (faces s) ->
      get_average_faces_position_in_clip fuel lfuel capture0 (Some m)
        = Some (Raise ZeroDivisionError))
  /\
  (forall (fuel lfuel : nat) (capture0 : Capture)
          (metadata : option Metadata.t),
      fst (read capture0) = None ->
      get_average_faces_position_in_clip (S fuel) lfuel capture0 metadata
        = Some (Raise match metadata with
                      | Some _ => ZeroDivisionError
                      | None => AttributeError
                      end)).
Proof.
  split.
  - intros fuel lfuel capture0 m s Hloop Hempty.
    pose proof (while_true_invariant _ _ _ _ _ Hloop) as (Hk & Hc & Hf & Hr).
    unfold get_average_faces_position_in_clip. rewrite Hloop.
    destruct (faces_shape _ Hk) as (a & b & c & e & Hshape).
    unfold after_loop. rewrite Hshape in *.
    inversion Hempty as [|? ? Ha Hempty1]; subst.
    inversion Hempty1 as [|? ? Hb Hempty2]; subst.
    inversion Hempty2 as [|? ? Hc' Hempty3]; subst.
    inversion Hempty3 as [|? ? He _]; subst.
    cbn [snd] in *. subst a b c e.
    cbn [select_rotation length Nat.ltb Nat.leb].
    assert (H0 : rotation s = 0).
    { destruct Hr as [H0 | (group & Hget & Hne)]; [exact H0|].
      destruct Hc as [H | [H | [H | H]]]; rewrite H in Hget;
        cbn in Hget; congruence. }
    rewrite H0. reflexivity.
  - intros fuel lfuel capture0 metadata Hread.
    unfold get_average_faces_position_in_clip.
    cbn [while_true]. unfold loop_body. cbn [initial capture].
    destruct (read capture0) as [captured c1]. cbn in Hread. subst captured.
    destruct metadata as [m|]; reflexivity.
Qed.

Lemma attempt_state_at_head (lfuel : nat) (metadata : option Metadata.t)
  (capture0 : Capture) (k : nat) :
  forall s,
    attempt_state lfuel metadata capture0 k = Some s ->
    at_head lfuel metadata capture0 s /\ frames_counter s = Z.of_nat k.
Proof.
  induction k as [|k IH]; intros s; [discriminate|].
  destruct k as [|k].
  - cbn. intros H. injection H as <-. split; [constructor | reflexivity].
  - change (attempt_state lfuel metadata capture0 (S (S k)))
      with (match attempt_state lfuel metadata capture0 (S k) with
            | Some s0 =>
                match loop_body lfuel metadata s0 with
                | Some (Ok (Continue s')) => Some s'
                | _ => None
                end
            | None => None
            end).
    destruct (attempt_state lfuel metadata capture0 (S k)) as [s0|];
      [|discriminate].
    destruct (IH s0 eq_refl) as [Hhead Hcount].
    destruct (loop_body lfuel metadata s0) as [[[s1|s1]|e]|] eqn:Hbody;
      try discriminate.
    intros H. injection H as <-.
    split.
    + apply (head_continue _ _ _ s0 s1 Hhead Hbody).
    + destruct (loop_body_continue _ _ _ _
                  (at_head_invariant _ _ _ _ Hhead) Hbody) as (_ & Hfc & _).
      rewrite Hfc, Hcount. lia.
Qed.

(** The first pass on a clip that has a frame never takes the early
    exit: it either goes on to the seek or runs out of fuel. *)
Lemma first_pass_reaches_seek (lfuel : nat) (capture0 : Capture)
  (image : Image) (c1 : Capture) (metadata : option Metadata.t) :
  read capture0 = (Some image, c1) -> (5 <= lfuel)%nat ->
  exists faces' rotation',
    loop_body lfuel metadata (initial capture0) =
      Some (fps <- attr metadata Metadata.fps ;;
            position <- py_mul_int fps 2 ;;
            capture2 <- capture_set c1 position ;;
            Ok (Continue {| faces := faces'; capture := capture2;
                            rotation := rotation';
                            frames_counter := 2 |})).
Proof.
  intros Hread Hfuel. unfold loop_body. cbn [initial capture rotation].
  rewrite Hread.
  assert (H0 : canonical 0) by (left; reflexivity).
  rewrite (locate_from_int lfuel image 0 H0 Hfuel).
  destruct (search_spec image (order_from 0)) as (res & calls & Hs & _ & _ & Hin).
  { intros a Ha. apply (order_from_canonical 0 H0). exact Ha. }
  rewrite Hs.
  destruct res as [[[x y] r']|].
  - assert (Hc : canonical r').
    { apply (order_from_canonical 0 H0). apply (Hin x y r' eq_refl). }
    destruct Hc as [E | [E | [E | E]]]; subst r';
      eexists; eexists; reflexivity.
  - eexists. eexists. reflexivity.
Qed.

(** C6 (what the code does): with the frame rate [get_video_metadata]
    stores, a text such as ['25.000'] (or [None]), the first seek of a clip
    that has a frame raises [TypeError]: line 67 multiplies a [str] and
    hands it to [capture.set]; no second sampling attempt takes place and
    the estimator ends in that error.  Were the frame rate a number, the
    [k]-th attempt ([k >= 2]) would start where the [k-1]-th left the
    capture, sought to [fps * k], after [frames_counter] became [k]: the
    counter is incremented before the seek, not after. *)
Theorem seek_raises_on_stored_frame_rate
  (lfuel : nat) (metadata : option Metadata.t) (capture0 : Capture) :
  (forall (m : Metadata.t) (image : Image) (c1 : Capture) (fuel : nat),
      metadata = Some m ->
      (Metadata.fps m = PyNone \/ exists text, Metadata.fps m = PyStr text) ->
      read capture0 = (Some image, c1) -> (5 <= lfuel)%nat ->
      loop_body lfuel metadata (initial capture0) = Some (Raise TypeError) /\
      attempt_state lfuel metadata capture0 2 = None /\
      get_average_faces_position_in_clip (S fuel) lfuel capture0 metadata
        = Some (Raise TypeError))
  /\
  (forall (k : nat) (s : loop_state),
      (2 <= k)%nat ->
      attempt_state lfuel metadata capture0 k = Some s ->
      frames_counter s = Z.of_nat k /\
      exists s0 fps,
        attempt_state lfuel metadata capture0 (k - 1) = Some s0 /\
        attr metadata Metadata.fps = Ok fps /\
        ((exists q, fps = PyFloat q /\
                    capture s = set_pos_frames (snd (read (capture s0)))
                                  (q * inject_Z (Z.of_nat k))%Q) \/
         (exists z, fps = PyInt z /\
                    capture s = set_pos_frames (snd (read (capture s0)))
                                  (inject_Z (z * Z.of_nat k))))).
Proof.
  split.
  - intros m image c1 fuel -> Hfps Hread Hfuel.
    destruct (first_pass_reaches_seek lfuel capture0 image c1 (Some m)
                Hread Hfuel) as (faces' & rotation' & Hbody).
    assert (Hraise : loop_body lfuel (Some m) (initial capture0)
                     = Some (Raise TypeError)).
    { rewrite Hbody. cbn [attr bind].
      destruct Hfps as [E | [text E]]; rewrite E; reflexivity. }
    split; [exact Hraise|]. split.
    + cbn [attempt_state]. rewrite Hraise. reflexivity.
    + unfold get_average_faces_position_in_clip. cbn [while_true].
      rewrite Hraise. reflexivity.
  - intros k s Hk Hs.
    destruct (attempt_state_at_head _ _ _ _ _ Hs) as [_ Hcount].
    split; [exact Hcount|].
    destruct k as [|[|k]]; try lia.
    change (attempt_state lfuel metadata capture0 (S (S k)))
      with (match attempt_state lfuel metadata capture0 (S k) with
            | Some s0 =>
                match loop_body lfuel metadata s0 with
                | Some (Ok (Continue s')) => Some s'
                | _ => None
                end
            | None => None
            end) in Hs.
    replace (S (S k) - 1)%nat with (S k) by lia.
    destruct (attempt_state lfuel metadata capture0 (S k)) as [s0|] eqn:Hprev;
      [|discriminate].
    destruct (attempt_state_at_head _ _ _ _ _ Hprev) as [Hhead Hc0].
    destruct (loop_body lfuel metadata s0) as [[[s1|s1]|e]|] eqn:Hbody;
      try discriminate.
    injection Hs as <-.
    destruct (loop_body_continue _ _ _ _
                (at_head_invariant _ _ _ _ Hhead) Hbody)
      as (_ & _ & fps & position & Hfps & Hmul & Hset).
    exists s0, fps. split; [reflexivity|]. split; [exact Hfps|].
    rewrite Hc0 in Hmul.
    replace (Z.of_nat (S k) + 1) with (Z.of_nat (S (S k))) in Hmul by lia.
    destruct fps as [|z|q|text]; cbn [py_mul_int] in Hmul;
      try discriminate; injection Hmul as <-; cbn [capture_set] in Hset.
    + right. exists z. split; [reflexivity|].
      injection Hset as Hset. symmetry. exact Hset.
    + left. exists q. split; [reflexivity|].
      injection Hset as Hset. symmetry. exact Hset.
    + discriminate.
Qed.

(** C8: at the head of the loop every observation list has at most 2
    entries (a pass that brings a list to 3 leaves the loop), so in every
    state a run goes through every list has at most 3; this holds of the
    state in which the loop is left, and so of the list of the rotation
    selected there. *)
Theorem observation_lists_never_exceed_three
  (lfuel : nat) (metadata : option Metadata.t) (capture0 : Capture) :
  (forall s, at_head lfuel metadata capture0 s ->
             Forall (fun kv => (length (snd kv) <= 2)%nat) (faces s)) /\
  (forall s, visited lfuel metadata capture0 s ->
             Forall (fun kv => (length (snd kv) <= 3)%nat) (faces s)) /\
  (forall fuel s,
      while_true fuel lfuel metadata (initial capture0) = Some (Ok s) ->
      visited lfuel metadata capture0 s /\
      forall group,
        dict_get (faces s) (select_rotation (faces s) 0 (rotation s))
          = Ok group ->
        (length group <= 3)%nat).
Proof.
  repeat split.
  - intros s H. apply (at_head_invariant _ _ _ _ H).
  - intros s H. apply (visited_invariant _ _ _ _ H).
  - apply (while_true_visited _ _ _ fuel (initial capture0));
      [constructor | assumption].
  - intros group Hget.
    pose proof (while_true_invariant _ _ _ _ _ H) as (_ & _ & Hf & _).
    apply dict_get_In in Hget.
    rewrite Forall_forall in Hf. apply (Hf _ Hget).
Qed.

(** *** Bucketing *)

Lemma bucket_within_side (v side : Z) :
  v <= side -> 1 <= bucket v (thirds side) 0 <= 3.
Proof.
  intros H. unfold thirds. cbn [bucket].
  destruct (Qle_bool (inject_Z v) (inject_Z side / 3)); [lia|].
  destruct (Qle_bool (inject_Z v) (inject_Z side * 2 / 3)); [lia|].
  assert (E : Qle_bool (inject_Z v) (inject_Z side) = true).
  { apply Qle_bool_iff. rewrite <- Zle_Qle. exact H. }
  rewrite E. lia.
Qed.

Lemma bucket_beyond_thresholds (v : Z) (line : list Q) :
  forall i0 : Z,
    (forall t, In t line -> (t < inject_Z v)%Q) ->
    bucket v line i0 = 0.
Proof.
  induction line as [|t rest IH]; intros i0 H; [reflexivity|].
  cbn [bucket].
  destruct (Qle_bool (inject_Z v) t) eqn:E.
  - apply Qle_bool_iff in E.
    exfalso. apply (Qlt_not_le _ _ (H t (or_introl eq_refl)) E).
  - apply IH. intros u Hu. apply H. right. exact Hu.
Qed.

Lemma sum_buckets_spec (group : list position) (lines : list Q * list Q) :
  forall ax ay c : Z,
    sum_buckets group lines ax ay c =
      (ax + Zsum (buckets_x group (fst lines)),
       ay + Zsum (buckets_y group (snd lines)),
       c + Z.of_nat (length group)).
Proof.
  induction group as [|face rest IH]; intros ax ay c.
  - cbn [sum_buckets buckets_x buckets_y map Zsum fold_right length].
    f_equal; [f_equal|]; lia.
  - cbn [sum_buckets]. rewrite IH.
    cbn [buckets_x buckets_y map Zsum fold_right].
    change (length (face :: rest)) with (S (length rest)).
    rewrite Nat2Z.inj_succ.
    fold (buckets_x rest (fst lines)) (buckets_y rest (snd lines)).
    fold (Zsum (buckets_x rest (fst lines))).
    fold (Zsum (buckets_y rest (snd lines))).
    f_equal; [f_equal|]; lia.
Qed.

(** Lines 82 to 100 never raise on a non-empty group, and every
    observation is counted in the divisor. *)
Lemma average_buckets_spec (group : list position) (lines : list Q * list Q) :
  group <> [] ->
  average_buckets group lines =
    Ok (py_round (bucket_mean (buckets_x group (fst lines))),
        py_round (bucket_mean (buckets_y group (snd lines)))).
Proof.
  intros Hne. unfold average_buckets. rewrite sum_buckets_spec.
  cbn [Z.add].
  assert (Hpos : 0 < Z.of_nat (length group)).
  { destruct group; [congruence | simpl length; lia]. }
  rewrite !py_truediv_nonzero by (apply inject_Z_pos_nonzero; exact Hpos).
  cbn [bind]. unfold bucket_mean, buckets_x, buckets_y.
  rewrite !length_map. reflexivity.
Qed.

Lemma Zsum_bounds (bs : list Z) :
  (forall b, In b bs -> 1 <= b <= 3) ->
  Z.of_nat (length bs) <= Zsum bs <= 3 * Z.of_nat (length bs).
Proof.
  induction bs as [|b bs IH]; intros H; [cbn; lia|].
  pose proof (H b (or_introl eq_refl)) as Hb.
  assert (IH' := IH (fun x Hx => H x (or_intror Hx))).
  change (Zsum (b :: bs)) with (b + Zsum bs).
  change (length (b :: bs)) with (S (length bs)).
  rewrite Nat2Z.inj_succ. lia.
Qed.

Lemma bucket_mean_rounds_within (bs : list Z) :
  bs <> [] ->
  (forall b, In b bs -> 1 <= b <= 3) ->
  1 <= py_round (bucket_mean bs) <= 3.
Proof.
  intros Hne H.
  pose proof (Zsum_bounds bs H) as [Hlo Hhi].
  assert (Hpos : 0 < Z.of_nat (length bs)).
  { destruct bs; [congruence | simpl length; lia]. }
  assert (HposQ : (0 < inject_Z (Z.of_nat (length bs)))%Q).
  { change 0%Q with (inject_Z 0). rewrite <- Zlt_Qlt. exact Hpos. }
  apply py_round_between; unfold bucket_mean.
  - apply Qle_shift_div_l; [exact HposQ|].
    rewrite <- inject_Z_mult, <- Zle_Qle. lia.
  - apply Qle_shift_div_r; [exact HposQ|].
    rewrite <- inject_Z_mult, <- Zle_Qle. lia.
Qed.

(** C10: in a run whose selected rotation has a non-empty observation list
    with every [x <= clip_w] and [y <= clip_h], the estimator returns and
    both bucket coordinates are 1, 2 or 3; and for any non-empty list the
    averages never raise and are taken over all the observations, one whose
    coordinate lies beyond every threshold counting with bucket 0. *)
Theorem bucket_coordinates_within_grid :
  (forall (fuel lfuel : nat) (capture0 : Capture)
          (metadata : option Metadata.t) (s : loop_state)
          (clip_w clip_h : Z) (group : list position),
      while_true fuel lfuel metadata (initial capture0) = Some (Ok s) ->
      clip_size metadata (select_rotation (faces s) 0 (rotation s))
        = Ok (clip_w, clip_h) ->
      dict_get (faces s) (select_rotation (faces s) 0 (rotation s))
        = Ok group ->
      group <> [] ->
      (forall x y, In (x, y) group -> x <= clip_w /\ y <= clip_h) ->
      exists bx by_,
        get_average_faces_position_in_clip fuel lfuel capture0 metadata
          = Some (Ok (bx, by_, select_rotation (faces s) 0 (rotation s))) /\
        1 <= bx <= 3 /\ 1 <= by_ <= 3)
  /\
  (forall (group : list position) (lines : list Q * list Q),
      group <> [] ->
      average_buckets group lines =
        Ok (py_round (bucket_mean (buckets_x group (fst lines))),
            py_round (bucket_mean (buckets_y group (snd lines)))))
  /\
  (forall (v : Z) (line : list Q),
      (forall t, In t line -> (t < inject_Z v)%Q) ->
      bucket v line 0 = 0).
Proof.
  split; [|split].
  - intros fuel lfuel capture0 metadata s clip_w clip_h group
           Hloop Hsize Hget Hne Hin.
    unfold get_average_faces_position_in_clip. rewrite Hloop.
    unfold after_loop. rewrite Hsize. cbn [bind fst snd].
    rewrite Hget. cbn [bind].
    rewrite average_buckets_spec by exact Hne. cbn [bind fst snd].
    eexists. eexists. split; [reflexivity|].
    unfold lines_of. cbn [fst snd].
    split; apply bucket_mean_rounds_within.
    + unfold buckets_x. destruct group; [congruence | discriminate].
    + intros b Hb. unfold buckets_x in Hb. apply in_map_iff in Hb.
      destruct Hb as ([x y] & <- & Hxy).
      apply bucket_within_side. apply (Hin x y Hxy).
    + unfold buckets_y. destruct group; [congruence | discriminate].
    + intros b Hb. unfold buckets_y in Hb. apply in_map_iff in Hb.
      destruct Hb as ([x y] & <- & Hxy).
      apply bucket_within_side. apply (Hin x y Hxy).
  - intros group lines Hne. apply average_buckets_spec. exact Hne.
  - intros v line H. apply bucket_beyond_thresholds. exact H.
Qed.

End ClipProperties.

(** ** The estimator on simulated clips *)

(** A clip sampled at the frames 0, 2, 3 and 4 (one frame per second): two
    upright faces and two lying ones, a tie that rotation 0 wins. *)
Lemma returned_rotation_is_first_longest_witness :
  exists s,
    while_true (cv := Sim.cv) 5 5 (Sim.hd_1080 1)
      (initial (cv := Sim.cv)
         (Sim.film [Sim.upright [Sim.one_face]; Sim.blank;
                    Sim.lying [Sim.one_face]; Sim.lying [Sim.one_face];
                    Sim.upright [Sim.one_face]]))
      = Some (Ok s) /\
    keys (faces s) = [0; 90; 180; 270] /\
    0 = select_rotation (faces s) 0 (rotation s) /\
    first_longest (faces s) 0.
Proof.
  apply (returned_rotation_is_first_longest (cv := Sim.cv) 5 5
           (Sim.film [Sim.upright [Sim.one_face]; Sim.blank;
                      Sim.lying [Sim.one_face]; Sim.lying [Sim.one_face];
                      Sim.upright [Sim.one_face]])
           (Sim.hd_1080 1) 1 1 0).
  vm_compute. reflexivity.
Defined.

(** A clip without frames, with a numeric frame rate and with the frame
    rate as stored, and a clip whose only frame shows no face (numeric
    frame rate). *)
Lemma zero_observations_raise_division_error_witness :
  get_average_faces_position_in_clip (cv := Sim.cv) 1 5
    (Sim.film []) (Sim.hd_1080 25) = Some (Raise ZeroDivisionError) /\
  get_average_faces_position_in_clip (cv := Sim.cv) 1 5
    (Sim.film []) Sim.as_built = Some (Raise ZeroDivisionError) /\
  get_average_faces_position_in_clip (cv := Sim.cv) 2 5
    (Sim.film [Sim.blank]) (Sim.hd_1080 25) = Some (Raise ZeroDivisionError).
Proof.
  split; [|split].
  - apply (proj2 (zero_observations_raise_division_error (cv := Sim.cv))
             0%nat 5%nat (Sim.film []) (Sim.hd_1080 25)).
    reflexivity.
  - apply (proj2 (zero_observations_raise_division_error (cv := Sim.cv))
             0%nat 5%nat (Sim.film []) Sim.as_built).
    reflexivity.
  - apply (proj1 (zero_observations_raise_division_error (cv := Sim.cv))
             2%nat 5%nat (Sim.film [Sim.blank])
             (Metadata.mk 1920 1080 0 (PyInt 10000) (PyFloat 25))
             (mkState (cv := Sim.cv)
                [(0, []); (90, []); (180, []); (270, [])]
                (Sim.mkVideo [Sim.blank] (25 * inject_Z (1 + 1))) 0 2)).
    + vm_compute. reflexivity.
    + repeat constructor.
Defined.

(** Three frames and the metadata as built: the first seek raises; and
    with a numeric frame rate of one frame per second the second pass
    reads at frame index 2, which skips the frame at index 1. *)
Lemma seek_raises_on_stored_frame_rate_witness :
  (loop_body (cv := Sim.cv) 5 Sim.as_built
     (initial (cv := Sim.cv)
        (Sim.film [Sim.blank; Sim.upright [Sim.one_face];
                   Sim.lying [Sim.one_face]]))
     = Some (Raise TypeError) /\
   attempt_state (cv := Sim.cv) 5 Sim.as_built
     (Sim.film [Sim.blank; Sim.upright [Sim.one_face];
                Sim.lying [Sim.one_face]]) 2 = None /\
   get_average_faces_position_in_clip (cv := Sim.cv) 4 5
     (Sim.film [Sim.blank; Sim.upright [Sim.one_face];
                Sim.lying [Sim.one_face]]) Sim.as_built
     = Some (Raise TypeError))
  /\
  exists s,
    attempt_state (cv := Sim.cv) 5 (Sim.hd_1080 1)
      (Sim.film [Sim.blank; Sim.upright [Sim.one_face];
                 Sim.lying [Sim.one_face]]) 2 = Some s /\
    frames_counter s = 2 /\
    Sim.pos (capture s) = (1 * inject_Z 2)%Q /\
    fst (Sim.sim_read (capture s)) = Some (Sim.lying [Sim.one_face]).
Proof.
  split.
  - refine (proj1 (seek_raises_on_stored_frame_rate (cv := Sim.cv) 5
                     Sim.as_built
                     (Sim.film [Sim.blank; Sim.upright [Sim.one_face];
                                Sim.lying [Sim.one_face]]))
              _ Sim.blank
              (Sim.mkVideo [Sim.blank; Sim.upright [Sim.one_face];
                            Sim.lying [Sim.one_face]] (0 + 1))
              3%nat eq_refl _ eq_refl (le_n 5)).
    right. eexists. reflexivity.
  - eexists. split; [reflexivity|].
    destruct (proj2 (seek_raises_on_stored_frame_rate (cv := Sim.cv) 5
                       (Sim.hd_1080 1)
                       (Sim.film [Sim.blank; Sim.upright [Sim.one_face];
                                  Sim.lying [Sim.one_face]]))
                2%nat _ (le_n 2) eq_refl)
      as (Hcount & s0 & fps & Hprev & Hfps & Hseek).
    split; [exact Hcount|].
    split; reflexivity.
Defined.

(** One frame with a lying face: rotation 90 wins, and the bucketing size
    is 1080 by 1920. *)
Lemma bucketing_lines_use_swapped_size_for_90_and_270_witness :
  exists s,
    while_true (cv := Sim.cv) 5 5 (Sim.hd_1080 1)
      (initial (cv := Sim.cv) (Sim.film [Sim.lying [Sim.one_face]]))
      = Some (Ok s) /\
    select_rotation (faces s) 0 (rotation s) = 90 /\
    clip_size (Sim.hd_1080 1) (select_rotation (faces s) 0 (rotation s))
      = Ok (1080, 1920) /\
    get_average_faces_position_in_clip (cv := Sim.cv) 5 5
      (Sim.film [Sim.lying [Sim.one_face]]) (Sim.hd_1080 1)
      = Some (Ok (1, 1, 90)).
Proof.
  eexists. split; [reflexivity|].
  split; [reflexivity|].
  pose proof (proj1 (bucketing_lines_use_swapped_size_for_90_and_270
                       (cv := Sim.cv))
                5%nat 5%nat (Sim.film [Sim.lying [Sim.one_face]])
                (Metadata.mk 1920 1080 0 (PyInt 10000) (PyFloat 1)) _ eq_refl) as H.
  cbv zeta in H. destruct H as (_ & Hsize & Hres).
  split; [exact Hsize|].
  refine (eq_trans Hres _). reflexivity.
Defined.

(** Faces at the frames 0, 2 and 3: the third observation ends the run. *)
Lemma observation_lists_never_exceed_three_witness :
  exists s,
    while_true (cv := Sim.cv) 5 5 (Sim.hd_1080 1)
      (initial (cv := Sim.cv)
         (Sim.film [Sim.upright [Sim.one_face]; Sim.blank;
                    Sim.upright [Sim.one_face]; Sim.upright [Sim.one_face];
                    Sim.upright [Sim.one_face]]))
      = Some (Ok s) /\
    dict_get (faces s) 0 = Ok [(25, 40); (25, 40); (25, 40)] /\
    Forall (fun kv => (length (snd kv) <= 3)%nat) (faces s).
Proof.
  eexists. split; [reflexivity|].
  split; [reflexivity|].
  apply (proj1 (proj2 (observation_lists_never_exceed_three (cv := Sim.cv)
                         5 (Sim.hd_1080 1)
                         (Sim.film [Sim.upright [Sim.one_face]; Sim.blank;
                                    Sim.upright [Sim.one_face];
                                    Sim.upright [Sim.one_face];
                                    Sim.upright [Sim.one_face]])))).
  refine (proj1 (proj2 (proj2 (observation_lists_never_exceed_three
                                 (cv := Sim.cv) 5 (Sim.hd_1080 1) _))
                   5%nat _ _)).
  reflexivity.
Defined.

(** The tie clip again: both buckets are 1; and an observation with
    [x = 5000] in a frame 1920 wide counts with bucket 0. *)
Lemma bucket_coordinates_within_grid_witness :
  (exists bx by_,
      get_average_faces_position_in_clip (cv := Sim.cv) 5 5
        (Sim.film [Sim.upright [Sim.one_face]; Sim.blank;
                   Sim.lying [Sim.one_face]; Sim.lying [Sim.one_face];
                   Sim.upright [Sim.one_face]])
        (Sim.hd_1080 1)
        = Some (Ok (bx, by_, 0)) /\
      1 <= bx <= 3 /\ 1 <= by_ <= 3)
  /\
  average_buckets [(5000, 40); (25, 40)] (lines_of 1920 1080) = Ok (0, 1)
  /\
  bucket 5000 (thirds 1920) 0 = 0.
Proof.
  split; [|split].
  - apply (proj1 (bucket_coordinates_within_grid (cv := Sim.cv)) 5%nat 5%nat
             (Sim.film [Sim.upright [Sim.one_face]; Sim.blank;
                        Sim.lying [Sim.one_face]; Sim.lying [Sim.one_face];
                        Sim.upright [Sim.one_face]])
             (Sim.hd_1080 1)
             (mkState (cv := Sim.cv)
                [(0, [(25, 40); (25, 40)]); (90, [(25, 40); (25, 40)]);
                 (180, []); (270, [])]
                (Sim.mkVideo
                   [Sim.upright [Sim.one_face]; Sim.blank;
                    Sim.lying [Sim.one_face]; Sim.lying [Sim.one_face];
                    Sim.upright [Sim.one_face]]
                   (1 * inject_Z (4 + 1))) 0 5)
             1920 1080 [(25, 40); (25, 40)]).
    + vm_compute. reflexivity.
    + reflexivity.
    + reflexivity.
    + discriminate.
    + intros x y [H | [H | []]]; injection H as <- <-; lia.
  - rewrite (proj1 (proj2 (bucket_coordinates_within_grid (cv := Sim.cv))))
      by discriminate.
    reflexivity.
  - apply (proj2 (proj2 (bucket_coordinates_within_grid (cv := Sim.cv)))).
    intros t [H | [H | [H | []]]]; subst t; reflexivity.
Defined.

(** * Further properties of the face search *)

Section MoreLocatorProperties.

Context {cv : OpenCV}.
Import RotationGenerator.

(** More fuel does not change what the locator returns. *)
Lemma locate_fuel_mono (image : Image) (fuel : nat) :
  forall rotation out fuel',
    get_average_face_position_in_image fuel image rotation = Some out ->
    (fuel <= fuel')%nat ->
    get_average_face_position_in_image fuel' image rotation = Some out.
Proof.
  induction fuel as [|fuel IH]; intros rotation out fuel' H Hle;
    [discriminate|].
  destruct fuel' as [|fuel']; [lia|].
  destruct (next (as_generator rotation)) as [[v|e] g'] eqn:Hnext.
  - rewrite (locate_unfold fuel _ _ _ _ Hnext) in H.
    rewrite (locate_unfold fuel' _ _ _ _ Hnext).
    destruct (rotated image v) as [r_image|e]; [|exact H].
    cbv zeta in H |- *.
    destruct (length (detectMultiScale (cvtColor_BGR2GRAY r_image)) =? 0)%nat;
      [|exact H].
    destruct (get_average_face_position_in_image fuel image (AsGenerator g'))
      as [[res calls]|] eqn:Hrec; [|discriminate].
    rewrite (IH _ _ fuel' Hrec) by lia. exact H.
  - cbn [get_average_face_position_in_image] in H |- *.
    rewrite Hnext in H |- *. exact H.
Qed.

(** Whatever the fuel, a result from a canonical integer start is the
    result of the bounded search. *)
Lemma locate_from_int_any_fuel (fuel : nat) (image : Image) (r0 : Z) out :
  canonical r0 ->
  get_average_face_position_in_image fuel image (AsInt r0) = Some out ->
  out = search image (order_from r0).
Proof.
  intros Hc H.
  pose proof (locate_fuel_mono image fuel (AsInt r0) out (fuel + 5) H) as H5.
  rewrite locate_from_int in H5 by (assumption || lia).
  specialize (H5 ltac:(lia)). congruence.
Qed.

(** A face found by the bounded search is found at the first angle of the
    list with a face, after one detector call per angle before it. *)
Lemma search_first_hit (image : Image) (order : list Z) :
  (forall a, In a order -> canonical a) ->
  forall x y r calls,
    search image order = (Ok (Some (x, y, r)), calls) ->
    exists before after fs,
      order = before ++ r :: after /\
      (forall a, In a before -> detected image a = Ok []) /\
      detected image r = Ok fs /\ fs <> [] /\
      x = py_round (mean (map center_x fs)) /\
      y = py_round (mean (map center_y fs)) /\
      length calls = S (length before).
Proof.
  induction order as [|a rest IH]; intros Hc x y r calls; [discriminate|].
  destruct (rotated_canonical image a (Hc a (or_introl eq_refl)))
    as [r_image Hrot].
  assert (Hdet : detected image a
                 = Ok (detectMultiScale (cvtColor_BGR2GRAY r_image))).
  { unfold detected. rewrite Hrot. reflexivity. }
  cbn [search]. rewrite Hrot. cbv zeta.
  destruct (detectMultiScale (cvtColor_BGR2GRAY r_image)) as [|f fs] eqn:Hfs.
  - cbn [length Nat.eqb].
    destruct (search image rest) as [res calls0] eqn:Hs.
    intros H. injection H as -> <-.
    destruct (IH (fun b Hb => Hc b (or_intror Hb)) x y r calls0 eq_refl)
      as (bf & af & fs & E & Hb & Hd & Hne & Hx & Hy & Hl).
    exists (a :: bf), af, fs. cbn [app length]. rewrite E.
    repeat split; try assumption.
    + intros b [<- | Hin]; [exact Hdet | apply Hb; exact Hin].
    + rewrite Hl. reflexivity.
  - cbn [length Nat.eqb].
    rewrite average_of_faces_spec by discriminate.
    intros H. injection H as <- <- <- <-.
    exists [], rest, (f :: fs).
    repeat split; try assumption; try reflexivity.
    + intros b [].
    + discriminate.
Qed.

(** X1: the rotation the locator returns from a canonical integer start is
    the first one, in the order tried, at which the detector reports a
    face; the position is the rounded mean of the centers of the faces
    seen there, and the detector was called once per rotation tried. *)
Theorem locator_returns_first_rotation_with_a_face
  (fuel : nat) (image : Image) (r0 x y r : Z) (calls : list Image) :
  canonical r0 ->
  get_average_face_position_in_image fuel image (AsInt r0)
    = Some (Ok (Some (x, y, r)), calls) ->
  exists before after fs,
    order_from r0 = before ++ r :: after /\
    (forall a, In a before -> detected image a = Ok []) /\
    detected image r = Ok fs /\ fs <> [] /\
    x = py_round (mean (map center_x fs)) /\
    y = py_round (mean (map center_y fs)) /\
    length calls = S (length before).
Proof.
  intros Hc H.
  apply (locate_from_int_any_fuel _ _ _ _ Hc) in H.
  apply (search_first_hit image (order_from r0)).
  - intros a Ha. apply (order_from_canonical r0 Hc). exact Ha.
  - symmetry. exact H.
Qed.

Lemma locate_as_generator (fuel : nat) (image : Image)
  (rotation rotation' : rotation_arg) :
  as_generator rotation = as_generator rotation' ->
  get_average_face_position_in_image fuel image rotation
  = get_average_face_position_in_image fuel image rotation'.
Proof.
  intros E. destruct fuel as [|fuel]; [reflexivity|].
  cbn [get_average_face_position_in_image]. rewrite E. reflexivity.
Qed.

(** The generator after [k] draws from a canonical start. *)
Lemma draw_state (r0 : Z) (k : nat) :
  canonical r0 ->
  snd (draw k (Created r0)) =
    match k with
    | O => Created r0
    | S j => if (j <? 4)%nat then Suspended (order_from r0) 4 j else Finished
    end.
Proof.
  intros Hc.
  destruct k as [|[|[|[|[|k]]]]];
    try (destruct Hc as [H | [H | [H | H]]]; subst r0; reflexivity).
  assert (E : snd (draw 5 (Created r0)) = Finished).
  { destruct Hc as [H | [H | [H | H]]]; subst r0; reflexivity. }
  replace (S (S (S (S (S k))))) with (5 + k)%nat by reflexivity.
  assert (G : forall a b g, snd (draw (a + b) g) = snd (draw b (snd (draw a g)))).
  { induction a as [|a IHa]; intros b g; [reflexivity|].
    cbn [Nat.add draw].
    destruct (next g) as [r g'].
    specialize (IHa b g').
    destruct (draw (a + b) g') as [rs g2].
    destruct (draw a g') as [rs' g3]. cbn [snd] in *. exact IHa. }
  rewrite G, E, GeneratorProperties.draw_finished.
  destruct (Nat.ltb_spec (4 + k) 4); [lia | reflexivity].
Qed.

(** X2: handed a generator from which [k] angles were already drawn, the
    locator tries the angles not drawn yet, in order, and no other: it is
    the bounded search over the rest of the cycle, so an exhausted
    generator gives [None] without any detector call. *)
Theorem locator_continues_a_started_generator
  (fuel k : nat) (image : Image) (r0 : Z) :
  canonical r0 -> (5 <= fuel + k)%nat -> (1 <= fuel)%nat ->
  get_average_face_position_in_image fuel image
    (AsGenerator (snd (draw k (Created r0))))
  = Some (search image (skipn k (order_from r0))).
Proof.
  intros Hc Hfuel Hone.
  destruct (order_from_canonical r0 Hc) as (Hlen & _ & _ & _).
  rewrite (draw_state r0 k Hc).
  destruct k as [|j].
  - rewrite (locate_as_generator fuel image _ (AsInt r0)) by reflexivity.
    apply locate_from_int; [exact Hc | lia].
  - destruct (Nat.ltb_spec j 4) as [Hj | Hj].
    + replace 4%nat with (length (order_from r0)) by exact Hlen.
      apply locate_suspended; [reflexivity|].
      rewrite length_skipn, Hlen. lia.
    + rewrite skipn_all2 by (rewrite Hlen; lia).
      destruct fuel as [|fuel]; [lia | reflexivity].
Qed.

End MoreLocatorProperties.

Lemma locator_returns_first_rotation_with_a_face_witness :
  exists before after fs,
    RotationGenerator.order_from 0 = before ++ 90 :: after /\
    (forall a, In a before ->
               detected (cv := Sim.cv) (Sim.lying [Sim.one_face]) a = Ok []) /\
    detected (cv := Sim.cv) (Sim.lying [Sim.one_face]) 90 = Ok fs /\
    fs <> [] /\
    25 = py_round (mean (map center_x fs)) /\
    40 = py_round (mean (map center_y fs)) /\
    length
      [Sim.lying [Sim.one_face];
       Sim.mkImage (Sim.seen (Sim.lying [Sim.one_face]))
         (Some ROTATE_90_COUNTERCLOCKWISE)]
    = S (length before).
Proof.
  apply (locator_returns_first_rotation_with_a_face (cv := Sim.cv) 5
           (Sim.lying [Sim.one_face]) 0 25 40 90).
  - left. reflexivity.
  - reflexivity.
Defined.

Lemma locator_continues_a_started_generator_witness :
  get_average_face_position_in_image (cv := Sim.cv) 3
    (Sim.upright [Sim.one_face])
    (AsGenerator
       (snd (RotationGenerator.draw 2 (RotationGenerator.Created 0))))
  = Some (search (cv := Sim.cv) (Sim.upright [Sim.one_face]) [270; 180])
  /\
  search (cv := Sim.cv) (Sim.upright [Sim.one_face]) [270; 180]
  = (Ok None,
     [Sim.mkImage (Sim.seen (Sim.upright [Sim.one_face]))
        (Some ROTATE_90_CLOCKWISE);
      Sim.mkImage (Sim.seen (Sim.upright [Sim.one_face]))
        (Some ROTATE_180)]).
Proof.
  split.
  - apply (locator_continues_a_started_generator (cv := Sim.cv) 3 2
             (Sim.upright [Sim.one_face]) 0).
    + left. reflexivity.
    + apply le_n.
    + apply le_S, le_S, le_n.
  - reflexivity.
Defined.

Section MoreClipProperties.

Context {cv : OpenCV}.
Import RotationGenerator.

(** *** How many observations a run records *)

Lemma total_observations_shape (a b c e : list position) :
  total_observations [(0, a); (90, b); (180, c); (270, e)]
  = (length a + (length b + (length c + (length e + 0))))%nat.
Proof. reflexivity. Qed.

Lemma record_face_total (s : loop_state) (x y r' : Z) faces' rot stop :
  loop_invariant 2 s -> canonical r' ->
  record_face s (Some (x, y, r')) = Ok (faces', rot, stop) ->
  total_observations faces' = S (total_observations (faces s)).
Proof.
  intros (Hk & _) Hc.
  destruct (faces_shape _ Hk) as (a & b & c & e & Hshape).
  unfold record_face. rewrite Hshape.
  destruct Hc as [H | [H | [H | H]]]; subst r';
    cbn [dict_append dict_get dict_modify bind Z.eqb Pos.eqb];
    intros E; injection E as <- _ _;
    rewrite !total_observations_shape, length_app; simpl; lia.
Qed.

(** A pass through the loop body records at most one observation. *)
Lemma loop_body_total (lfuel : nat) (metadata : option Metadata.t)
  (s s' : loop_state) :
  loop_invariant 2 s ->
  loop_body lfuel metadata s = Some (Ok (Continue s')) \/
  loop_body lfuel metadata s = Some (Ok (Break s')) ->
  (total_observations (faces s') <= S (total_observations (faces s)))%nat.
Proof.
  intros Hinv. unfold loop_body.
  destruct (read (capture s)) as [[image|] c1].
  - destruct (get_average_face_position_in_image lfuel image
                (AsInt (rotation s)))
      as [[[found|e] calls]|] eqn:L;
      try (intros [H | H]; discriminate).
    destruct found as [[[x y] r']|].
    + assert (Hc : canonical r').
      { destruct Hinv as (_ & Hrot & _).
        exact (locator_rotation_canonical _ _ _ _ _ _ _ Hrot L). }
      destruct (record_face s (Some (x, y, r'))) as [[[faces' rot] stop]|e]
        eqn:Hrec; [|intros [H | H]; discriminate].
      pose proof (record_face_total _ _ _ _ _ _ _ Hinv Hc Hrec) as Ht.
      cbn [bind].
      destruct stop.
      * intros [H | H]; [discriminate|]. injection H as <-. cbn [faces]. lia.
      * destruct metadata as [m|]; [|intros [H | H]; discriminate].
        cbn [attr bind].
        destruct (py_mul_int (Metadata.fps m) (frames_counter s + 1));
          [|intros [H | H]; discriminate].
        cbn [bind].
        destruct (capture_set c1 a); [|intros [H | H]; discriminate].
        cbn [bind].
        intros [H | H]; [|discriminate]. injection H as <-. cbn [faces]. lia.
    + cbn [record_face bind].
      destruct metadata as [m|]; [|intros [H | H]; discriminate].
      cbn [attr bind].
      destruct (py_mul_int (Metadata.fps m) (frames_counter s + 1));
        [|intros [H | H]; discriminate].
      cbn [bind].
      destruct (capture_set c1 a); [|intros [H | H]; discriminate].
      cbn [bind].
      intros [H | H]; [|discriminate]. injection H as <-. cbn [faces]. lia.
  - intros [H | H]; [discriminate|]. injection H as <-. cbn [faces]. lia.
Qed.

(** X5: a run records few observations: at most 8 are held whenever a
    pass through the loop begins, and at most 9 in any state the run goes
    through, so at most 9 frames with faces are ever used. *)
Theorem run_records_at_most_nine_observations
  (lfuel : nat) (metadata : option Metadata.t) (capture0 : Capture) :
  (forall s, at_head lfuel metadata capture0 s ->
             (total_observations (faces s) <= 8)%nat) /\
  (forall s, visited lfuel metadata capture0 s ->
             (total_observations (faces s) <= 9)%nat).
Proof.
  assert (Hhead : forall s, at_head lfuel metadata capture0 s ->
                            (total_observations (faces s) <= 8)%nat).
  { intros s H.
    destruct (at_head_invariant _ _ _ _ H) as (Hk & _ & Hf & _).
    destruct (faces_shape _ Hk) as (a & b & c & e & Hshape).
    rewrite Hshape in *. rewrite total_observations_shape.
    repeat match goal with
           | F : Forall _ (_ :: _) |- _ => inversion F; clear F; subst
           end.
    cbn [snd] in *. lia. }
  split; [exact Hhead|].
  intros s [s' H | s0 s' H Hbody].
  - specialize (Hhead _ H). lia.
  - pose proof (loop_body_total _ _ _ _ (at_head_invariant _ _ _ _ H)
                  (or_intror Hbody)).
    specialize (Hhead _ H). lia.
Qed.

(** *** Buckets *)

Lemma Qle_bool_third (v side : Z) :
  Qle_bool (inject_Z v) (inject_Z side / 3) = (3 * v <=? side).
Proof.
  unfold Qle_bool, Qdiv, Qmult, Qinv, inject_Z. cbn -[Z.mul Z.leb].
  match goal with
  | |- (?a <=? ?b) = (?c <=? ?d) =>
      destruct (Z.leb_spec a b); destruct (Z.leb_spec c d);
        try reflexivity; lia
  end.
Qed.

Lemma Qle_bool_two_thirds (v side : Z) :
  Qle_bool (inject_Z v) (inject_Z side * 2 / 3) = (3 * v <=? 2 * side).
Proof.
  unfold Qle_bool, Qdiv, Qmult, Qinv, inject_Z. cbn -[Z.mul Z.leb].
  match goal with
  | |- (?a <=? ?b) = (?c <=? ?d) =>
      destruct (Z.leb_spec a b); destruct (Z.leb_spec c d);
        try reflexivity; lia
  end.
Qed.

Lemma Qle_bool_inject_Z (v side : Z) :
  Qle_bool (inject_Z v) (inject_Z side) = (v <=? side).
Proof.
  unfold Qle_bool, Qdiv, Qmult, Qinv, inject_Z. cbn -[Z.mul Z.leb].
  match goal with
  | |- (?a <=? ?b) = (?c <=? ?d) =>
      destruct (Z.leb_spec a b); destruct (Z.leb_spec c d);
        try reflexivity; lia
  end.
Qed.

Lemma bucket_thirds (v side : Z) :
  bucket v (thirds side) 0 = bucket_of v side.
Proof.
  unfold thirds, bucket_of. cbn [bucket].
  rewrite Qle_bool_third, Qle_bool_two_thirds, Qle_bool_inject_Z.
  reflexivity.
Qed.

Lemma bucket_of_range (v side : Z) : 0 <= bucket_of v side <= 3.
Proof.
  unfold bucket_of.
  destruct (3 * v <=? side); [lia|].
  destruct (3 * v <=? 2 * side); [lia|].
  destruct (v <=? side); lia.
Qed.

Lemma Zsum_bounds_from_zero (bs : list Z) :
  (forall b, In b bs -> 0 <= b <= 3) ->
  0 <= Zsum bs <= 3 * Z.of_nat (length bs).
Proof.
  induction bs as [|b bs IH]; intros H; [cbn; lia|].
  pose proof (H b (or_introl eq_refl)) as Hb.
  assert (IH' := IH (fun x Hx => H x (or_intror Hx))).
  change (Zsum (b :: bs)) with (b + Zsum bs).
  change (length (b :: bs)) with (S (length bs)).
  rewrite Nat2Z.inj_succ. lia.
Qed.

Lemma bucket_mean_rounds_from_zero (bs : list Z) :
  bs <> [] ->
  (forall b, In b bs -> 0 <= b <= 3) ->
  0 <= py_round (bucket_mean bs) <= 3.
Proof.
  intros Hne H.
  pose proof (Zsum_bounds_from_zero bs H) as [Hlo Hhi].
  assert (Hpos : 0 < Z.of_nat (length bs)).
  { destruct bs; [congruence | simpl length; lia]. }
  assert (HposQ : (0 < inject_Z (Z.of_nat (length bs)))%Q).
  { change 0%Q with (inject_Z 0). rewrite <- Zlt_Qlt. exact Hpos. }
  apply py_round_between; unfold bucket_mean.
  - apply Qle_shift_div_l; [exact HposQ|].
    rewrite <- inject_Z_mult, <- Zle_Qle. lia.
  - apply Qle_shift_div_r; [exact HposQ|].
    rewrite <- inject_Z_mult, <- Zle_Qle. lia.
Qed.

(** The rotation the estimator returns is one of the four angles. *)
Lemma estimator_rotation_canonical
  (fuel lfuel : nat) (capture0 : Capture) (metadata : option Metadata.t)
  (bx by_ r : Z) :
  get_average_faces_position_in_clip fuel lfuel capture0 metadata
    = Some (Ok (bx, by_, r)) ->
  canonical r.
Proof.
  unfold get_average_faces_position_in_clip.
  destruct (while_true fuel lfuel metadata (initial capture0))
    as [[s|e]|] eqn:Hloop; try discriminate.
  intros H. injection H as H.
  pose proof (while_true_invariant _ _ _ _ _ Hloop) as Hinv.
  destruct (selected_first_longest s Hinv) as [Hcan _].
  unfold after_loop in H.
  destruct (clip_size metadata _); [|discriminate]. cbn [bind] in H.
  destruct (dict_get (faces s) _); [|discriminate]. cbn [bind] in H.
  destruct (average_buckets _ _); [|discriminate]. cbn [bind] in H.
  injection H as _ _ <-. exact Hcan.
Qed.

(** X7: whatever the clip, a result of the estimator has both bucket
    coordinates between 0 and 3 and a rotation among 0, 90, 180, 270, and
    the rotation returned has at least one observation. *)
Theorem estimator_result_within_grid_and_angles
  (fuel lfuel : nat) (capture0 : Capture) (metadata : option Metadata.t)
  (bx by_ r : Z) :
  get_average_faces_position_in_clip fuel lfuel capture0 metadata
    = Some (Ok (bx, by_, r)) ->
  0 <= bx <= 3 /\ 0 <= by_ <= 3 /\ canonical r /\
  exists s group,
    while_true fuel lfuel metadata (initial capture0) = Some (Ok s) /\
    dict_get (faces s) r = Ok group /\ group <> [].
Proof.
  unfold get_average_faces_position_in_clip.
  destruct (while_true fuel lfuel metadata (initial capture0))
    as [[s|e]|] eqn:Hloop; try discriminate.
  intros H. injection H as H.
  pose proof (while_true_invariant _ _ _ _ _ Hloop) as Hinv.
  destruct (selected_first_longest s Hinv) as [Hcan _].
  unfold after_loop in H.
  destruct (clip_size metadata _) as [[w h]|]; [|discriminate].
  cbn [bind fst snd] in H.
  destruct (dict_get (faces s) _) as [group|] eqn:Hget; [|discriminate].
  cbn [bind] in H.
  destruct group as [|p group]; [discriminate|].
  rewrite average_buckets_spec in H by discriminate.
  cbn [bind fst snd] in H. injection H as <- <- <-.
  unfold lines_of. cbn [fst snd].
  assert (Hrange : forall bs side (g : list position) (f : position -> Z),
             bs = map (fun face => bucket (f face) (thirds side) 0) g ->
             g <> [] -> 0 <= py_round (bucket_mean bs) <= 3).
  { intros bs side g f -> Hg.
    apply bucket_mean_rounds_from_zero.
    - destruct g; [congruence | discriminate].
    - intros b Hb. apply in_map_iff in Hb.
      destruct Hb as (q & <- & _).
      rewrite bucket_thirds. apply bucket_of_range. }
  split; [apply (Hrange _ w (p :: group) fst); [reflexivity | discriminate]|].
  split; [apply (Hrange _ h (p :: group) snd); [reflexivity | discriminate]|].
  split; [exact Hcan|].
  exists s, (p :: group).
  split; [reflexivity|]. split; [exact Hget | discriminate].
Qed.

(** *** The size used for bucketing *)

Lemma py_mod_quarter_turns (r : Z) :
  Qeq_bool (py_mod (inject_Z r / 90) 2) 1 = (r mod 180 =? 90).
Proof.
  assert (Hfloor : Qfloor (inject_Z r / 90 / 2) = r / 180).
  { unfold Qdiv, Qmult, Qinv, inject_Z, Qfloor. cbn -[Z.mul Z.div].
    rewrite !Z.mul_1_r. reflexivity. }
  pose proof (Z.div_mod r 180 ltac:(lia)) as Hdm.
  destruct (Z.eqb_spec (r mod 180) 90) as [E | N].
  - apply Qeq_bool_iff. unfold py_mod. rewrite Hfloor.
    unfold Qeq, Qminus, Qplus, Qopp, Qdiv, Qmult, Qinv, inject_Z.
    cbn -[Z.mul Z.add Z.div Z.modulo]. lia.
  - apply not_true_is_false. intros H. apply Qeq_bool_iff in H.
    unfold py_mod in H. rewrite Hfloor in H.
    unfold Qeq, Qminus, Qplus, Qopp, Qdiv, Qmult, Qinv, inject_Z in H.
    cbn -[Z.mul Z.add Z.div Z.modulo] in H. lia.
Qed.

End MoreClipProperties.

(** The further properties on simulated clips. *)

(** Two faces at each of the four rotations and then one more, with a
    numeric frame rate: nine observations. *)
Lemma run_records_at_most_nine_observations_witness :
  exists s,
    while_true (cv := Sim.cv) 10 5 (Sim.hd_1080 1)
      (initial (cv := Sim.cv)
         (Sim.film
            [Sim.upright [Sim.one_face]; Sim.blank;
             Sim.upright [Sim.one_face];
             Sim.lying [Sim.one_face]; Sim.lying [Sim.one_face];
             Sim.mkImage
               (fun t => match t with
                         | Some ROTATE_180 => [Sim.one_face]
                         | _ => []
                         end) None;
             Sim.mkImage
               (fun t => match t with
                         | Some ROTATE_180 => [Sim.one_face]
                         | _ => []
                         end) None;
             Sim.mkImage
               (fun t => match t with
                         | Some ROTATE_90_CLOCKWISE => [Sim.one_face]
                         | _ => []
                         end) None;
             Sim.mkImage
               (fun t => match t with
                         | Some ROTATE_90_CLOCKWISE => [Sim.one_face]
                         | _ => []
                         end) None;
             Sim.upright [Sim.one_face]]))
      = Some (Ok s) /\
    total_observations (faces s) = 9%nat /\
    (total_observations (faces s) <= 9)%nat.
Proof.
  eexists. split; [vm_compute; reflexivity|]. split; [reflexivity|].
  refine (proj2 (run_records_at_most_nine_observations (cv := Sim.cv) 5
                   (Sim.hd_1080 1)
                   (Sim.film
            [Sim.upright [Sim.one_face]; Sim.blank;
             Sim.upright [Sim.one_face];
             Sim.lying [Sim.one_face]; Sim.lying [Sim.one_face];
             Sim.mkImage
               (fun t => match t with
                         | Some ROTATE_180 => [Sim.one_face]
                         | _ => []
                         end) None;
             Sim.mkImage
               (fun t => match t with
                         | Some ROTATE_180 => [Sim.one_face]
                         | _ => []
                         end) None;
             Sim.mkImage
               (fun t => match t with
                         | Some ROTATE_90_CLOCKWISE => [Sim.one_face]
                         | _ => []
                         end) None;
             Sim.mkImage
               (fun t => match t with
                         | Some ROTATE_90_CLOCKWISE => [Sim.one_face]
                         | _ => []
                         end) None;
             Sim.upright [Sim.one_face]])) _ _).
  refine (while_true_visited (cv := Sim.cv) 5 (Sim.hd_1080 1)
            (Sim.film
            [Sim.upright [Sim.one_face]; Sim.blank;
             Sim.upright [Sim.one_face];
             Sim.lying [Sim.one_face]; Sim.lying [Sim.one_face];
             Sim.mkImage
               (fun t => match t with
                         | Some ROTATE_180 => [Sim.one_face]
                         | _ => []
                         end) None;
             Sim.mkImage
               (fun t => match t with
                         | Some ROTATE_180 => [Sim.one_face]
                         | _ => []
                         end) None;
             Sim.mkImage
               (fun t => match t with
                         | Some ROTATE_90_CLOCKWISE => [Sim.one_face]
                         | _ => []
                         end) None;
             Sim.mkImage
               (fun t => match t with
                         | Some ROTATE_90_CLOCKWISE => [Sim.one_face]
                         | _ => []
                         end) None;
             Sim.upright [Sim.one_face]]) 10 _ _ (head_initial _ _ _) _).
  vm_compute. reflexivity.
Defined.

Lemma estimator_result_within_grid_and_angles_witness :
  0 <= 1 <= 3 /\ 0 <= 1 <= 3 /\ RotationGenerator.canonical 90 /\
  exists s group,
    while_true (cv := Sim.cv) 5 5 (Sim.hd_1080 1)
      (initial (cv := Sim.cv) (Sim.film [Sim.lying [Sim.one_face]]))
      = Some (Ok s) /\
    dict_get (faces s) 90 = Ok group /\ group <> [].
Proof.
  apply (estimator_result_within_grid_and_angles (cv := Sim.cv) 5 5
           (Sim.film [Sim.lying [Sim.one_face]]) (Sim.hd_1080 1) 1 1 90).
  vm_compute. reflexivity.
Defined.

(** * Properties of the editor and its utilities *)

Module EditorProperties.

Import String.
Import VideoEditor.

(** X9: the thread count is at least 2, it is the number of cores less 2
    from 5 cores on, it exceeds the number of cores only on a machine with
    fewer than 2, it never decreases when the number of cores grows, and an
    unknown number of cores ([None]) raises [TypeError]. *)
Theorem thread_count_at_least_two_and_monotone :
  (forall total : Z,
      exists n,
        get_reasonable_thread_count (Some total) = Value n /\
        2 <= n /\
        (5 <= total -> n = total - 2) /\
        (n <= total <-> 2 <= total)) /\
  (forall total total' n n' : Z,
      total <= total' ->
      get_reasonable_thread_count (Some total) = Value n ->
      get_reasonable_thread_count (Some total') = Value n' ->
      n <= n') /\
  get_reasonable_thread_count None = Error TypeError.
Proof.
  split; [|split]; [| |reflexivity].
  - intros total. unfold get_reasonable_thread_count.
    destruct (Z.ltb_spec total 5) as [L | L]; eexists;
      (split; [reflexivity|]); lia.
  - intros total total' n n' Hle. unfold get_reasonable_thread_count.
    destruct (Z.ltb_spec total 5) as [L | L];
      destruct (Z.ltb_spec total' 5) as [L' | L'];
      intros E E'; injection E as <-; injection E' as <-; lia.
Qed.

Lemma thread_count_at_least_two_and_monotone_witness :
  get_reasonable_thread_count (Some 4) = Value 2 /\
  get_reasonable_thread_count (Some 16) = Value 14 /\
  2 <= 14.
Proof.
  split; [reflexivity|]. split; [reflexivity|].
  apply (proj1 (proj2 thread_count_at_least_two_and_monotone) 4 16 2 14).
  - discriminate.
  - reflexivity.
  - reflexivity.
Defined.

Section WithLibrary.

Context {lib : Library}.

(** *** [get_video_metadata] *)

Lemma first_video_track_none (tracks : list Track) :
  first_video_track tracks = Value None <->
  forall track, In track tracks -> ~ is_video track.
Proof.
  unfold is_video.
  induction tracks as [|t rest IH]; cbn [first_video_track].
  - split; [intros _ track [] | reflexivity].
  - destruct (String.eqb_spec (track_type t) "Video") as [E | N].
    + split.
      * destruct (rotation_of t); discriminate.
      * intros H. exfalso. apply (H t (or_introl eq_refl) E).
    + rewrite IH. split.
      * intros Hall track [<- | Hin]; [exact N | apply Hall; exact Hin].
      * intros Hall track Hin. apply Hall. right. exact Hin.
Qed.

Lemma first_video_track_first (before after : list Track) (track : Track) :
  (forall b, In b before -> ~ is_video b) ->
  is_video track ->
  first_video_track (before ++ track :: after) =
    match rotation_of track with
    | Value r =>
        Value (Some (Metadata.mk (track_width track) (track_height track) r
                       (track_duration track) (track_frame_rate track)))
    | Error e => Error e
    end.
Proof.
  unfold is_video. intros Hb Ht.
  induction before as [|b before IH]; cbn [app first_video_track].
  - rewrite Ht. reflexivity.
  - destruct (String.eqb_spec (track_type b) "Video") as [E | N].
    + exfalso. apply (Hb b (or_introl eq_refl) E).
    + apply IH. intros c Hc. apply Hb. right. exact Hc.
Qed.

(** X10: [get_video_metadata] gives [None] exactly when the file has no
    track of type "Video"; otherwise it describes the first such track and
    ignores the later ones, with rotation 0 when that track has no
    rotation, and an unreadable rotation of that track is the only thing
    that raises. *)
Theorem get_video_metadata_describes_first_video_track
  (path : Path) (tracks : list Track) :
  parse path = Value tracks ->
  (get_video_metadata path = Value None <->
   forall track, In track tracks -> ~ is_video track) /\
  (forall before track after,
      tracks = before ++ track :: after ->
      (forall b, In b before -> ~ is_video b) ->
      is_video track ->
      get_video_metadata path =
        match rotation_of track with
        | Value r =>
            Value (Some (Metadata.mk (track_width track)
                           (track_height track) r (track_duration track)
                           (track_frame_rate track)))
        | Error e => Error e
        end /\
      (track_rotation track = None -> rotation_of track = Value 0%Q)).
Proof.
  intros Hparse. unfold get_video_metadata. rewrite Hparse. split.
  - apply first_video_track_none.
  - intros before track after -> Hb Ht. split.
    + apply first_video_track_first; assumption.
    + intros E. unfold rotation_of. rewrite E. reflexivity.
Qed.

(** *** The guard of the methods *)

Lemma guard_unloaded {A : Type} (method : editor -> outcome A)
  (self : editor) :
  clip self = None ->
  require_initialized "__clip" method self = Raises RuntimeError self.
Proof.
  intros H. unfold require_initialized.
  change (mangled_name "Editor" "__clip") with "_Editor__clip"%string.
  unfold getattr. cbn [String.eqb Ascii.eqb Bool.eqb andb].
  rewrite H. reflexivity.
Qed.

Lemma guard_loaded {A : Type} (method : editor -> outcome A)
  (self : editor) (current : Clip) :
  clip self = Some current ->
  require_initialized "__clip" method self = method self.
Proof.
  intros H. unfold require_initialized.
  change (mangled_name "Editor" "__clip") with "_Editor__clip"%string.
  unfold getattr. cbn [String.eqb Ascii.eqb Bool.eqb andb].
  rewrite H. reflexivity.
Qed.

(** X11: on an editor without a loaded clip every guarded method raises
    [RuntimeError] and leaves the editor as it was, whatever its
    arguments: invalid arguments are not reported and no file is opened. *)
Theorem guarded_methods_raise_without_clip (self : editor) :
  clip self = None ->
  get_clip self = Raises RuntimeError self /\
  (forall p t, write_video p t self = Raises RuntimeError self) /\
  (forall s e, cut s e self = Raises RuntimeError self) /\
  (forall a, rotate a self = Raises RuntimeError self) /\
  (forall p t d r m, insert_img p t d r m self = Raises RuntimeError self) /\
  (forall p t s e r m,
      insert_video p t s e r m self = Raises RuntimeError self) /\
  (forall c t m, insert_clip c t m self = Raises RuntimeError self).
Proof.
  intros H.
  repeat split; intros; apply guard_unloaded; exact H.
Qed.

(** *** [rotate] after the estimator *)

(** X12: the rotation the estimator returns is always one [rotate]
    accepts: on a loaded editor, rotating by the estimate never raises
    the [ValueError] of line 120; it does nothing for rotation 0 and
    otherwise hands the clip to the library's [rotated]. *)
Theorem rotate_accepts_estimated_rotation
  {cv : OpenCV} (fuel lfuel : nat) (capture0 : Capture)
  (metadata : option Metadata.t) (bx by_ r : Z)
  (self : editor) (current : Clip) :
  get_average_faces_position_in_clip fuel lfuel capture0 metadata
    = Some (Ok (bx, by_, r)) ->
  clip self = Some current ->
  rotate_by_faces (bx, by_, r) self =
    if r =? 0 then Returns tt self
    else assign_clip (rotated current r) self.
Proof.
  intros Hest Hclip.
  pose proof (estimator_rotation_canonical _ _ _ _ _ _ _ Hest) as Hcan.
  unfold rotate_by_faces, rotate.
  rewrite (guard_loaded _ self current Hclip).
  unfold with_clip. rewrite Hclip.
  destruct Hcan as [E | [E | [E | E]]]; subst r; reflexivity.
Qed.

(** *** [insert_clip] *)

(** X13: [insert_clip] with [time=None], its default, raises [TypeError]
    on a loaded editor (at the comparison [time < 0]) and never appends the
    clip; the editor is left as it was. *)
Theorem insert_clip_without_time_raises_type_error
  (self : editor) (current new : Clip) (method : string) :
  clip self = Some current ->
  insert_clip new None method self = Raises TypeError self.
Proof.
  intros H. unfold insert_clip.
  rewrite (guard_loaded _ self current H). reflexivity.
Qed.

Lemma Qlt_bool_true (a b : Q) : Qlt_bool a b = true <-> (a < b)%Q.
Proof.
  unfold Qlt_bool. rewrite negb_true_iff. split.
  - intros H. apply Qnot_le_lt. intros L.
    apply Qle_bool_iff in L. congruence.
  - intros H. apply not_true_is_false. intros L.
    apply Qle_bool_iff in L. apply (Qlt_not_le _ _ H L).
Qed.

Lemma Qlt_bool_false (a b : Q) : Qlt_bool a b = false <-> (b <= a)%Q.
Proof.
  unfold Qlt_bool. rewrite negb_false_iff. apply Qle_bool_iff.
Qed.

(** X14: a negative [time] counts from the end: when the clip is at least
    that long, inserting at [time < 0] is inserting at [duration + time];
    inserting at [-duration] puts the new clip first. *)
Theorem insert_clip_negative_time_counts_from_end
  (self : editor) (current new : Clip) (t : Q) (method : string) :
  clip self = Some current ->
  (t < 0)%Q -> (0 <= duration current + t)%Q ->
  insert_clip new (Some t) method self
    = insert_clip new (Some (duration current + t)%Q) method self /\
  ((duration current + t == 0)%Q ->
   insert_clip new (Some t) method self
     = assign_clip (concatenate_videoclips [new; current] method) self).
Proof.
  intros H Hneg Hpos. unfold insert_clip.
  rewrite !(guard_loaded _ self current H).
  unfold with_clip. rewrite H.
  assert (E1 : Qlt_bool t 0 = true) by (apply Qlt_bool_true; exact Hneg).
  assert (E2 : Qlt_bool (duration current + t) 0 = false)
    by (apply Qlt_bool_false; exact Hpos).
  rewrite E1, E2. split; [reflexivity|].
  intros Hz. apply Qeq_bool_iff in Hz. rewrite Hz. reflexivity.
Qed.

(** *** What the methods leave unchanged *)

Lemma with_clip_loaded {A : Type} (self : editor) (current : Clip)
  (k : Clip -> outcome A) :
  clip self = Some current -> with_clip self k = k current.
Proof.
  intros H. unfold with_clip. rewrite H. reflexivity.
Qed.

Lemma clip_cases (self : editor) :
  (exists current, clip self = Some current) \/ clip self = None.
Proof.
  destruct (clip self) as [current|]; [left; exists current|right];
    reflexivity.
Qed.

Lemma get_subclip_cases (start_time : Q) (end_time : option Q)
  (self : editor) :
  (exists c, get_subclip start_time end_time self = Returns c self) \/
  (exists e, get_subclip start_time end_time self = Raises e self).
Proof.
  unfold get_subclip.
  destruct (clip_cases self) as [[current H] | H].
  - rewrite (guard_loaded _ self current H). rewrite (with_clip_loaded _ _ _ H).
    destruct (subclipped current start_time end_time);
      [left | right]; eexists; reflexivity.
  - rewrite (guard_unloaded _ self H). right. eexists. reflexivity.
Qed.

(** The object after a guarded method that only assigns the clip. *)
Lemma assign_clip_after (value : answer Clip) (self : editor)
  (current : Clip) :
  clip self = Some current ->
  same_settings self (after (assign_clip value self)) /\
  video_file_path (after (assign_clip value self)) = video_file_path self /\
  (clip self = None -> clip (after (assign_clip value self)) = None).
Proof.
  intros H. unfold same_settings, assign_clip.
  destruct value; cbn; repeat split; congruence.
Qed.

Lemma unchanged_after (self : editor) :
  same_settings self self /\
  video_file_path self = video_file_path self /\
  (clip self = None -> clip self = None).
Proof.
  unfold same_settings. repeat split; auto.
Qed.

Lemma insert_clip_after (new : Clip) (time : option Q) (method : string)
  (self : editor) :
  same_settings self (after (insert_clip new time method self)) /\
  video_file_path (after (insert_clip new time method self))
    = video_file_path self /\
  (clip self = None ->
   clip (after (insert_clip new time method self)) = None).
Proof.
  unfold insert_clip.
  destruct (clip_cases self) as [[current H] | H].
  - rewrite (guard_loaded _ self current H).
    destruct time as [t|]; [|apply unchanged_after].
    rewrite (with_clip_loaded _ _ _ H).
    destruct (Qeq_bool _ 0); [apply (assign_clip_after _ _ _ H)|].
    destruct (Qle_bool _ _); [apply (assign_clip_after _ _ _ H)|].
    destruct (get_subclip_cases 0
                (Some (if Qlt_bool t 0 then (duration current + t)%Q else t))
                self) as [[c1 E1] | [e1 E1]]; rewrite E1;
      [|apply unchanged_after].
    destruct (get_subclip_cases
                (if Qlt_bool t 0 then (duration current + t)%Q else t)
                None self) as [[c2 E2] | [e2 E2]]; rewrite E2;
      [|apply unchanged_after].
    apply (assign_clip_after _ _ _ H).
  - rewrite (guard_unloaded _ self H). apply unchanged_after.
Qed.

(** A call other than [load_video] changes nothing but the clip, and
    loads none where there was none. *)
Lemma perform_other (c : call) (self : editor) :
  (forall p, c <> CallLoadVideo p) ->
  same_settings self (perform c self) /\
  video_file_path (perform c self) = video_file_path self /\
  (clip self = None -> clip (perform c self) = None).
Proof.
  intros Hc.
  destruct c; try (exfalso; eapply Hc; reflexivity); cbn [perform];
    try apply insert_clip_after;
    (destruct (clip_cases self) as [[current H] | H];
     [ | unfold get_clip, write_video, cut, rotate, insert_img,
           insert_video;
         rewrite (guard_unloaded _ self H); apply unchanged_after ]).
  - unfold get_clip. rewrite (guard_loaded _ self current H).
    rewrite (with_clip_loaded _ _ _ H). apply unchanged_after.
  - unfold write_video. rewrite (guard_loaded _ self current H).
    destruct (match output_file_path with
              | Some p => Some p
              | None => _
              end); [|apply unchanged_after].
    rewrite (with_clip_loaded _ _ _ H).
    destruct (write_videofile _ _ _ _ _); apply unchanged_after.
  - unfold cut. rewrite (guard_loaded _ self current H).
    destruct (invalid_range _ _); [apply unchanged_after|].
    rewrite (with_clip_loaded _ _ _ H). apply (assign_clip_after _ _ _ H).
  - unfold rotate. rewrite (guard_loaded _ self current H).
    destruct (negb _); [apply unchanged_after|].
    rewrite (with_clip_loaded _ _ _ H). apply (assign_clip_after _ _ _ H).
  - unfold insert_img. rewrite (guard_loaded _ self current H).
    destruct (ImageClip _ _); [|apply unchanged_after].
    rewrite (with_clip_loaded _ _ _ H).
    destruct (fit _ _ _); [|apply unchanged_after].
    apply insert_clip_after.
  - unfold insert_video. rewrite (guard_loaded _ self current H).
    destruct (VideoFileClip _ _); [|apply unchanged_after].
    rewrite (with_clip_loaded _ _ _ H).
    destruct (fit _ _ _); [|apply unchanged_after].
    destruct (invalid_range _ _); [apply unchanged_after|].
    match goal with
    | |- context [match (if ?b then ?x else ?y) with _ => _ end] =>
        destruct (if b then x else y); [|apply unchanged_after]
    end.
    apply insert_clip_after.
Qed.

(** What [load_video] does to the object. *)
Lemma load_video_after (file_path : Path) (self : editor) :
  same_settings self (after (load_video file_path self)) /\
  (after (load_video file_path self) = self \/
   video_file_path (after (load_video file_path self)) = Some file_path).
Proof.
  unfold load_video, same_settings.
  destruct (VideoFileClip file_path (audio self)) as [c|e];
    [|cbn; repeat split; auto].
  unfold normalize_video_size.
  erewrite guard_loaded by reflexivity.
  unfold with_clip. cbn [clip].
  destruct (get_video_metadata (filename c)) as [[m|]|e].
  - destruct (Qeq_bool (Metadata.rotation m) 90
              || Qeq_bool (Metadata.rotation m) 270);
      unfold assign_clip;
      match goal with
      | |- context [resized c ?sz] => destruct (resized c sz)
      end; cbn; repeat split; auto.
  - cbn; repeat split; auto.
  - cbn; repeat split; auto.
Qed.

(** X15: no method call changes the settings given to the constructor:
    the output format, the frame rate, the audio flag and the thread count
    of an editor stay what they were, whether the call returns or raises. *)
Theorem calls_keep_the_settings (c : call) (self : editor) :
  same_settings self (perform c self).
Proof.
  destruct c; try (apply perform_other; discriminate).
  cbn [perform]. apply load_video_after.
Qed.

Lemma reachable_path (self : editor) :
  reachable self ->
  clip self <> None -> video_file_path self <> None.
Proof.
  induction 1 as [cpu fmt f wa wt self Hinit | self c Hreach IH].
  - unfold init in Hinit.
    destruct (match wt with
              | Some n => Value n
              | None => get_reasonable_thread_count cpu
              end); [|discriminate].
    injection Hinit as <-. cbn. congruence.
  - destruct c as [|p| | | | | |];
      try (match goal with
           | |- clip (perform ?call self) <> None -> _ =>
               destruct (perform_other call self
                           ltac:(intros q; discriminate))
                 as (_ & Hp & Hn)
           end;
           rewrite Hp; intros Hclip; apply IH; intros E;
           apply Hclip, Hn, E).
    cbn [perform].
    destruct (load_video_after p self) as (_ & [E | E]).
    + rewrite E. exact IH.
    + rewrite E. discriminate.
Qed.

(** X16: an editor that holds a clip also holds the path it was loaded
    from, after any sequence of calls; so [write_video] without an output
    path always has its default target, the source's folder and stem with
    ["-edited."] and the output format, and hands it to the library. *)
Theorem loaded_editor_has_a_default_target
  (self : editor) (current : Clip) (threads : option Z) :
  reachable self -> clip self = Some current ->
  exists source,
    video_file_path self = Some source /\
    write_video None threads self =
      match
        write_videofile current
          (join (parent source)
             (stem source ++ "-edited." ++ output_format self))
          (fps self) (audio self)
          (match threads with
           | Some n => n
           | None => write_threads self
           end)
      with
      | Value _ =>
          Returns
            (join (parent source)
               (stem source ++ "-edited." ++ output_format self)) self
      | Error e => Raises e self
      end.
Proof.
  intros Hreach Hclip.
  assert (Hpath : video_file_path self <> None).
  { apply (reachable_path self Hreach). congruence. }
  destruct (video_file_path self) as [source|] eqn:E; [|congruence].
  exists source. split; [reflexivity|].
  unfold write_video. rewrite (guard_loaded _ self current Hclip).
  rewrite E. unfold with_clip. rewrite Hclip. reflexivity.
Qed.

(** *** [load_video] *)

(** X17: [load_video] on a file the library cannot open leaves the editor
    as it was; on a file without a video track it raises [ValueError] but
    keeps the clip it has just opened, not resized, and the new path, so
    the guarded methods then run on that clip. *)
Theorem load_video_failures (file_path : Path) (self : editor) :
  (forall e,
      VideoFileClip file_path (audio self) = Error e ->
      load_video file_path self = Raises e self) /\
  (forall c,
      VideoFileClip file_path (audio self) = Value c ->
      get_video_metadata (filename c) = Value None ->
      exists self',
        load_video file_path self = Raises ValueError self' /\
        clip self' = Some c /\
        video_file_path self' = Some file_path /\
        same_settings self self' /\
        get_clip self' = Returns c self').
Proof.
  split.
  - intros e H. unfold load_video. rewrite H. reflexivity.
  - intros c Hopen Hmeta. unfold load_video. rewrite Hopen.
    unfold normalize_video_size.
    erewrite guard_loaded by reflexivity.
    unfold with_clip. cbn [clip]. rewrite Hmeta.
    eexists. split; [reflexivity|].
    split; [reflexivity|]. split; [reflexivity|].
    split; [unfold same_settings; cbn; repeat split; reflexivity|].
    unfold get_clip. erewrite guard_loaded by reflexivity. reflexivity.
Qed.

(** X18: when [load_video] succeeds in reading the metadata of a clip whose
    rotation is an integer between 0 and 359, it resizes the clip to the
    very size the face search uses for bucketing at that rotation: both
    swap width and height exactly for 90 and 270. *)
Theorem load_video_resizes_to_the_bucketing_size
  (file_path : Path) (self : editor) (c : Clip) (m : Metadata.t) (r : Z) :
  VideoFileClip file_path (audio self) = Value c ->
  get_video_metadata (filename c) = Value (Some m) ->
  (Metadata.rotation m == inject_Z r)%Q -> 0 <= r < 360 ->
  exists size,
    clip_size (Some m) r = Ok size /\
    size = (if (r =? 90) || (r =? 270)
            then (Metadata.height m, Metadata.width m)
            else (Metadata.width m, Metadata.height m)) /\
    load_video file_path self =
      assign_clip (resized c size)
        {| clip := Some c; video_file_path := Some file_path;
           output_format := output_format self; fps := fps self;
           audio := audio self; write_threads := write_threads self |}.
Proof.
  intros Hopen Hmeta Hrot Hr.
  assert (Hswap : (r mod 180 =? 90) = ((r =? 90) || (r =? 270))).
  { destruct (Z.eqb_spec r 90) as [-> | N90]; [reflexivity|].
    destruct (Z.eqb_spec r 270) as [-> | N270]; [reflexivity|].
    cbn [orb]. apply Z.eqb_neq. intros E.
    pose proof (Z.div_mod r 180 ltac:(lia)) as Hdm.
    assert (r / 180 = 0 \/ r / 180 = 1) as [Q0 | Q1].
    { assert (0 <= r / 180 < 2); [|lia].
      split; [apply Z.div_pos; lia | apply Z.div_lt_upper_bound; lia]. }
    - lia.
    - lia. }
  assert (H90 : Qeq_bool (Metadata.rotation m) 90 = (r =? 90)).
  { destruct (Z.eqb_spec r 90) as [-> | N].
    - apply Qeq_bool_iff. exact Hrot.
    - apply not_true_is_false. intros H. apply Qeq_bool_iff in H.
      rewrite Hrot in H. apply N. apply (proj1 (inject_Z_injective r 90) H). }
  assert (H270 : Qeq_bool (Metadata.rotation m) 270 = (r =? 270)).
  { destruct (Z.eqb_spec r 270) as [-> | N].
    - apply Qeq_bool_iff. exact Hrot.
    - apply not_true_is_false. intros H. apply Qeq_bool_iff in H.
      rewrite Hrot in H. apply N. apply (proj1 (inject_Z_injective r 270) H). }
  eexists. split; [|split; [reflexivity|]].
  - unfold clip_size. rewrite py_mod_quarter_turns, Hswap.
    destruct ((r =? 90) || (r =? 270)); reflexivity.
  - unfold load_video. rewrite Hopen.
    unfold normalize_video_size.
    erewrite guard_loaded by reflexivity.
    unfold with_clip. cbn [clip]. rewrite Hmeta.
    rewrite H90, H270.
    destruct ((r =? 90) || (r =? 270)); reflexivity.
Qed.

(** *** Time ranges *)

Lemma invalid_range_spec (start_time : Q) (end_time : option Q) :
  invalid_range start_time end_time = true <->
  (start_time < 0)%Q \/
  exists e, end_time = Some e /\ (e < start_time)%Q.
Proof.
  unfold invalid_range. rewrite orb_true_iff, Qlt_bool_true.
  destruct end_time as [e|].
  - rewrite Qlt_bool_true. split.
    + intros [H | H]; [left; exact H | right; exists e; auto].
    + intros [H | (e' & E & H)]; [left; exact H|].
      injection E as <-. right. exact H.
  - split.
    + intros [H | H]; [left; exact H | discriminate].
    + intros [H | (e' & E & _)]; [left; exact H | discriminate].
Qed.

(** X19: on a loaded editor [cut] raises [ValueError], leaving the clip
    as it is, exactly for a negative start or an end before the start; an
    empty range ([end = start]) and an open end are accepted and handed to
    the library's [subclipped]. *)
Theorem cut_rejects_exactly_invalid_ranges
  (self : editor) (current : Clip) (start_time : Q) (end_time : option Q) :
  clip self = Some current ->
  ((start_time < 0)%Q \/
   (exists e, end_time = Some e /\ (e < start_time)%Q) ->
   cut start_time end_time self = Raises ValueError self) /\
  ((0 <= start_time)%Q ->
   (forall e, end_time = Some e -> (start_time <= e)%Q) ->
   cut start_time end_time self
     = assign_clip (subclipped current start_time end_time) self).
Proof.
  intros H. unfold cut. rewrite (guard_loaded _ self current H).
  rewrite (with_clip_loaded _ _ _ H). split.
  - intros Hbad. apply invalid_range_spec in Hbad. rewrite Hbad.
    reflexivity.
  - intros Hs He.
    assert (E : invalid_range start_time end_time = false).
    { apply not_true_is_false. intros Hbad.
      apply invalid_range_spec in Hbad.
      destruct Hbad as [Hneg | (e & Ee & Hlt)].
      - apply (Qlt_not_le _ _ Hneg Hs).
      - apply (Qlt_not_le _ _ Hlt (He e Ee)). }
    rewrite E. reflexivity.
Qed.

(** X20: [insert_video] reports an invalid cut range only after it has
    opened the file and fitted its size: a file that cannot be opened
    raises the library's error instead; and with a cut from 0 and no end
    the file is inserted whole, without a call of [subclipped].  In the
    failing cases the editor is left as it was. *)
Theorem insert_video_checks_range_after_opening
  (self : editor) (current : Clip) (video_path : Path) (time : option Q)
  (cut_start_time : Q) (cut_end_time : option Q) (resize_video : bool)
  (method : string) :
  clip self = Some current ->
  ((cut_start_time < 0)%Q \/
   (exists e, cut_end_time = Some e /\ (e < cut_start_time)%Q) ->
   insert_video video_path time cut_start_time cut_end_time resize_video
     method self =
     match VideoFileClip video_path (audio self) with
     | Error e => Raises e self
     | Value video_clip =>
         match fit resize_video video_clip current with
         | Error e => Raises e self
         | Value _ => Raises ValueError self
         end
     end) /\
  ((cut_start_time == 0)%Q -> cut_end_time = None ->
   insert_video video_path time cut_start_time cut_end_time resize_video
     method self =
     match VideoFileClip video_path (audio self) with
     | Error e => Raises e self
     | Value video_clip =>
         match fit resize_video video_clip current with
         | Error e => Raises e self
         | Value fitted => insert_clip fitted time method self
         end
     end).
Proof.
  intros H. unfold insert_video. rewrite (guard_loaded _ self current H).
  split.
  - intros Hbad. apply invalid_range_spec in Hbad.
    destruct (VideoFileClip video_path (audio self)); [|reflexivity].
    rewrite (with_clip_loaded _ _ _ H).
    destruct (fit resize_video a current); [|reflexivity].
    rewrite Hbad. reflexivity.
  - intros Hzero ->.
    destruct (VideoFileClip video_path (audio self)); [|reflexivity].
    rewrite (with_clip_loaded _ _ _ H).
    destruct (fit resize_video a current); [|reflexivity].
    assert (E1 : invalid_range cut_start_time None = false).
    { unfold invalid_range. rewrite orb_false_r.
      apply Qlt_bool_false. rewrite Hzero. apply Qle_refl. }
    assert (E2 : Qlt_bool 0 cut_start_time = false).
    { apply Qlt_bool_false. rewrite Hzero. apply Qle_refl. }
    rewrite E1, E2. reflexivity.
Qed.

End WithLibrary.

(** *** The properties on the simulated library and clips *)

Lemma get_video_metadata_describes_first_video_track_witness :
  get_video_metadata (lib := Demo.library) 1%nat
    = Value (Some (Metadata.mk 1920 1080 90 (PyInt 10000) (PyStr "25.000"))) /\
  ~ (get_video_metadata (lib := Demo.library) 1%nat = Value None).
Proof.
  pose proof (get_video_metadata_describes_first_video_track
                (lib := Demo.library) 1%nat _ eq_refl) as [Hnone Hfirst].
  split.
  - refine (proj1 (Hfirst [mkTrack "General" 0 0 None (PyInt 10000) PyNone]
                     (mkTrack "Video" 1920 1080 (Some "90.000"%string)
                        (PyInt 10000) (PyStr "25.000"))
                     [mkTrack "Audio" 0 0 None (PyInt 10000) PyNone;
                      mkTrack "Video" 640 480 None (PyInt 10000)
                        (PyStr "30.000")]
                     eq_refl _ eq_refl)).
    intros b [<- | []]. unfold is_video. cbn. discriminate.
  - intros E.
    apply (proj1 Hnone E
             (mkTrack "Video" 640 480 None (PyInt 10000) (PyStr "30.000"))).
    + right. right. right. left. reflexivity.
    + reflexivity.
Defined.

Lemma guarded_methods_raise_without_clip_witness :
  rotate (lib := Demo.library) 45 Demo.fresh
    = Raises RuntimeError Demo.fresh /\
  cut (lib := Demo.library) (-1) None Demo.fresh
    = Raises RuntimeError Demo.fresh.
Proof.
  pose proof (guarded_methods_raise_without_clip (lib := Demo.library)
                Demo.fresh eq_refl) as (_ & _ & Hcut & Hrot & _).
  split; [apply Hrot | apply Hcut].
Defined.

Lemma rotate_accepts_estimated_rotation_witness :
  rotate_by_faces (lib := Demo.library) (1, 1, 90) Demo.loaded
  = Returns tt
      (mkEditor (lib := Demo.library)
         (Some (1%nat, (10%Q, (1080, 1920)))) (Some 1%nat)
         "mp4" None true 2).
Proof.
  refine (eq_trans
            (rotate_accepts_estimated_rotation (lib := Demo.library)
               (cv := Sim.cv) 5 5 (Sim.film [Sim.lying [Sim.one_face]])
               (Sim.hd_1080 1) 1 1 90 Demo.loaded
               (1%nat, (10%Q, (1920, 1080))) _ eq_refl) _).
  - vm_compute. reflexivity.
  - reflexivity.
Defined.

Lemma insert_clip_without_time_raises_type_error_witness :
  insert_clip (lib := Demo.library) (2%nat, (1%Q, (1920, 1080))) None
    "compose" Demo.loaded
  = Raises TypeError Demo.loaded.
Proof.
  apply (insert_clip_without_time_raises_type_error (lib := Demo.library)
           Demo.loaded (1%nat, (10%Q, (1920, 1080)))).
  reflexivity.
Defined.

Lemma insert_clip_negative_time_counts_from_end_witness :
  insert_clip (lib := Demo.library) (2%nat, (1%Q, (1920, 1080)))
    (Some (-3)%Q) "compose" Demo.loaded
  = insert_clip (lib := Demo.library) (2%nat, (1%Q, (1920, 1080)))
      (Some (10 + -3)%Q) "compose" Demo.loaded.
Proof.
  refine (proj1 (insert_clip_negative_time_counts_from_end
                   (lib := Demo.library) Demo.loaded
                   (1%nat, (10%Q, (1920, 1080)))
                   (2%nat, (1%Q, (1920, 1080))) (-3)%Q "compose"
                   eq_refl _ _)).
  - reflexivity.
  - discriminate.
Defined.

Lemma loaded_editor_has_a_default_target_witness :
  exists source,
    video_file_path (after (load_video (lib := Demo.library) 1%nat Demo.fresh))
      = Some source /\
    write_video (lib := Demo.library) None None
      (after (load_video (lib := Demo.library) 1%nat Demo.fresh))
    = Returns 2%nat
        (after (load_video (lib := Demo.library) 1%nat Demo.fresh)).
Proof.
  destruct (loaded_editor_has_a_default_target (lib := Demo.library)
              (after (load_video (lib := Demo.library) 1%nat Demo.fresh))
              (1%nat, (10%Q, (1080, 1920))) None)
    as (source & Hsource & Hwrite).
  - apply (reachable_call (lib := Demo.library) Demo.fresh
             (CallLoadVideo (lib := Demo.library) 1%nat)).
    apply (reachable_init (lib := Demo.library) (Some 4) "mp4" None false
             None).
    reflexivity.
  - reflexivity.
  - exists source. split; [exact Hsource|].
    rewrite Hwrite. injection Hsource as <-. reflexivity.
Defined.

Lemma load_video_failures_witness :
  load_video (lib := Demo.library) 0%nat Demo.fresh
    = Raises (LibraryError 2) Demo.fresh /\
  exists self',
    load_video (lib := Demo.library) 2%nat Demo.fresh
      = Raises ValueError self' /\
    clip self' = Some (2%nat, (10%Q, (1920, 1080))) /\
    video_file_path self' = Some 2%nat /\
    same_settings Demo.fresh self' /\
    get_clip self' = Returns (2%nat, (10%Q, (1920, 1080))) self'.
Proof.
  split.
  - apply (proj1 (load_video_failures (lib := Demo.library) 0%nat
                    Demo.fresh)).
    reflexivity.
  - apply (proj2 (load_video_failures (lib := Demo.library) 2%nat
                    Demo.fresh)); reflexivity.
Defined.

Lemma load_video_resizes_to_the_bucketing_size_witness :
  exists size,
    clip_size (Some (Metadata.mk 1920 1080 90 (PyInt 10000) (PyStr "25.000"))) 90 = Ok size /\
    size = (1080, 1920) /\
    load_video (lib := Demo.library) 1%nat Demo.fresh =
      assign_clip (lib := Demo.library)
        (resized (Library := Demo.library)
           (1%nat, (10%Q, (1920, 1080))) size)
        (mkEditor (lib := Demo.library)
           (Some (1%nat, (10%Q, (1920, 1080)))) (Some 1%nat)
           "mp4" None true 2).
Proof.
  apply (load_video_resizes_to_the_bucketing_size (lib := Demo.library)
           1%nat Demo.fresh (1%nat, (10%Q, (1920, 1080)))
           (Metadata.mk 1920 1080 90 (PyInt 10000) (PyStr "25.000")) 90).
  - reflexivity.
  - reflexivity.
  - reflexivity.
  - lia.
Defined.

Lemma cut_rejects_exactly_invalid_ranges_witness :
  cut (lib := Demo.library) 4 (Some 2%Q) Demo.loaded
    = Raises ValueError Demo.loaded /\
  cut (lib := Demo.library) 4 (Some 4%Q) Demo.loaded
    = assign_clip (lib := Demo.library)
        (subclipped (Library := Demo.library)
           (1%nat, (10%Q, (1920, 1080))) 4 (Some 4%Q))
        Demo.loaded.
Proof.
  split.
  - apply (proj1 (cut_rejects_exactly_invalid_ranges (lib := Demo.library)
                    Demo.loaded (1%nat, (10%Q, (1920, 1080))) 4 (Some 2%Q)
                    eq_refl)).
    right. exists 2%Q. split; reflexivity.
  - apply (proj2 (cut_rejects_exactly_invalid_ranges (lib := Demo.library)
                    Demo.loaded (1%nat, (10%Q, (1920, 1080))) 4 (Some 4%Q)
                    eq_refl)).
    + discriminate.
    + intros e E. injection E as <-. apply Qle_refl.
Defined.

Lemma insert_video_checks_range_after_opening_witness :
  insert_video (lib := Demo.library) 0%nat (Some 0%Q) (-1) None true
    "compose" Demo.loaded
    = Raises (LibraryError 2) Demo.loaded /\
  insert_video (lib := Demo.library) 3%nat (Some 0%Q) (-1) None true
    "compose" Demo.loaded
    = Raises ValueError Demo.loaded.
Proof.
  split.
  - refine (eq_trans
              (proj1 (insert_video_checks_range_after_opening
                        (lib := Demo.library) Demo.loaded
                        (1%nat, (10%Q, (1920, 1080))) 0%nat (Some 0%Q)
                        (-1) None true "compose" eq_refl) _) _).
    + left. reflexivity.
    + reflexivity.
  - refine (eq_trans
              (proj1 (insert_video_checks_range_after_opening
                        (lib := Demo.library) Demo.loaded
                        (1%nat, (10%Q, (1920, 1080))) 3%nat (Some 0%Q)
                        (-1) None true "compose" eq_refl) _) _).
    + left. reflexivity.
    + reflexivity.
Defined.

End EditorProperties.
